(** * boompah-connect: the request executor and the WordPress resource client

    A shallow embedding of [common/api_client.py] (class [APIClient]),
    [wordpress/client.py] (class [WordPressClient]), [common/config.py]
    (class [ConfigManager]) and, of the template project, the validation
    in [config.py] and the singleton wrapper of [wp_client.py], with the
    properties of the specification and further properties of the code
    stated over it.

    Conventions of the embedding:
    - a Python [str] is a [string]; it is read as its UTF-8 bytes, so
      [str.encode()] is the identity on the representation;
    - a Python [int] is a [Z]; an [Optional[T]] argument is an [option T],
      [None] being the default of the signature;
    - a Python [dict] with string keys is a [gmap string _];
    - a method that performs I/O or may raise is a computation in the monad
      [M] below (state passing plus an exception outcome);
    - the [requests] transport, the JSON decoder, [mimetypes.guess_type],
      the file system and [repr] of containers are not part of the
      repository: they are variables of the section [Client]. *)

From stdpp Require Import gmap strings list fin_maps.
From Stdlib Require Import ZArith Lia DecimalString Ascii String.
From Stdlib.Strings Require Import Byte.

#[local] Set Warnings "-clear-no-such-hyp".

Open Scope string_scope.
Open Scope list_scope.
Open Scope Z_scope.

(** ** Python strings *)

Module PyStr.

(** [s.lstrip(c)] for a single character [c]. *)
Fixpoint lstrip (c : ascii) (s : string) : string :=
  match s with
  | String a s' => if Ascii.eqb a c then lstrip c s' else s
  | EmptyString => EmptyString
  end.

(** [s.rstrip(c)] for a single character [c]. *)
Fixpoint rstrip (c : ascii) (s : string) : string :=
  match s with
  | EmptyString => EmptyString
  | String a s' =>
      match rstrip c s' with
      | EmptyString => if Ascii.eqb a c then EmptyString else String a EmptyString
      | r => String a r
      end
  end.

(** [c * n] *)
Fixpoint times (c : ascii) (n : nat) : string :=
  match n with
  | O => EmptyString
  | S n' => String c (times c n')
  end.

(** [s.startswith(c)] and [s.endswith(c)] for a single character. *)
Definition startswith (c : ascii) (s : string) : bool :=
  match s with
  | String a _ => Ascii.eqb a c
  | EmptyString => false
  end.

Fixpoint endswith (c : ascii) (s : string) : bool :=
  match s with
  | EmptyString => false
  | String a EmptyString => Ascii.eqb a c
  | String _ s' => endswith c s'
  end.

(** [sep.join(l)] *)
Fixpoint join (sep : string) (l : list string) : string :=
  match l with
  | [] => ""
  | [x] => x
  | x :: l' => x +:+ sep +:+ join sep l'
  end.

(** [str(z)] for an [int]. *)
Definition of_int (z : Z) : string := NilZero.string_of_int (Z.to_int z).

(** [bool(s)] for a [str]: the empty string is falsy. *)
Definition truthy (s : string) : bool :=
  match s with
  | EmptyString => false
  | String _ _ => true
  end.

(** The one-character string made of a double quote. *)
Definition dquote : string := String "034"%char EmptyString.

(** [s.isascii()]: every byte is below 128. *)
Definition is_ascii (s : string) : bool :=
  forallb (λ c, (N_of_ascii c <? 128)%N) (list_ascii_of_string s).

(** [s.lower()] for an ASCII string: the letters A-Z are lower-cased. A
    byte of 128 or more is left as it is, so on a string that is not ASCII
    this is not [str.lower], which also lower-cases the letters outside
    ASCII; what is stated of it on arbitrary names assumes [is_ascii]. *)
Definition lower_ascii (a : ascii) : ascii :=
  let n := N_of_ascii a in
  if ((65 <=? n) && (n <=? 90))%N then ascii_of_N (n + 32) else a.

Fixpoint lower (s : string) : string :=
  match s with
  | EmptyString => EmptyString
  | String a s' => String (lower_ascii a) (lower s')
  end.

(** [s.rfind(c) + 1 .. ]: the suffix after the last occurrence of [c]
    ([s] itself when [c] does not occur). *)
Fixpoint after_last (c : ascii) (s : string) : string :=
  match s with
  | EmptyString => EmptyString
  | String a s' =>
      if existsb (Ascii.eqb c) (list_ascii_of_string s') then after_last c s'
      else if Ascii.eqb a c then s' else s
  end.

End PyStr.

(** ** [base64.b64encode] (RFC 4648, with padding) *)

Module Base64.

Definition alphabet : string :=
  "ABCDEFGHIJKLMNOPQRSTUVWXYZabcdefghijklmnopqrstuvwxyz0123456789+/".

Definition digit (n : N) : Byte.byte :=
  match String.get (N.to_nat n) alphabet with
  | Some c => byte_of_ascii c
  | None => "="%byte
  end.

Fixpoint b64encode (bs : list Byte.byte) : list Byte.byte :=
  match bs with
  | [] => []
  | [a] =>
      let a := Byte.to_N a in
      [digit (N.shiftr a 2); digit (N.shiftl (N.land a 3) 4); "="%byte; "="%byte]
  | [a; b] =>
      let a := Byte.to_N a in
      let b := Byte.to_N b in
      [digit (N.shiftr a 2);
       digit (N.lor (N.shiftl (N.land a 3) 4) (N.shiftr b 4));
       digit (N.shiftl (N.land b 15) 2);
       "="%byte]
  | a :: b :: c :: rest =>
      let a := Byte.to_N a in
      let b := Byte.to_N b in
      let c := Byte.to_N c in
      digit (N.shiftr a 2)
      :: digit (N.lor (N.shiftl (N.land a 3) 4) (N.shiftr b 4))
      :: digit (N.lor (N.shiftl (N.land b 15) 2) (N.shiftr c 6))
      :: digit (N.land c 63)
      :: b64encode rest
  end.

(** [base64.b64encode(s.encode()).decode()] *)
Definition encode_str (s : string) : string :=
  string_of_list_byte (b64encode (list_byte_of_string s)).

End Base64.

(** ** The base client: URL construction *)

(** [requests.structures.CaseInsensitiveDict], the type of
    [Session.headers]: the store is keyed by the lower-cased name and keeps
    the name as last written with the value. *)
Abbreviation CaseInsensitiveDict := (gmap string (string * string)).

Definition cid_update1 (k v : string) (d : CaseInsensitiveDict) : CaseInsensitiveDict :=
  <[PyStr.lower k := (k, v)]> d.

Definition cid_get (k : string) (d : CaseInsensitiveDict) : option string :=
  snd <$> d !! PyStr.lower k.

Record Session := { session_headers : CaseInsensitiveDict }.

Record APIClient := { base_url : string; session : Session }.

Section Construction.

(** The headers of a fresh [requests.Session()]. *)
Variable requests_default_headers : CaseInsensitiveDict.

(** [APIClient.__init__] *)
Definition APIClient_init (base : string) : APIClient :=
  {| base_url := PyStr.rstrip "/" base;
     session := {| session_headers := requests_default_headers |} |}.

End Construction.

(** The first statement of [APIClient._request]:
    [url = f"{self.base_url}/{endpoint.lstrip('/')}"]. *)
Definition request_url (self : APIClient) (endpoint : string) : string :=
  base_url self +:+ "/" +:+ PyStr.lstrip "/" endpoint.

(** ** Values, responses, exceptions *)

(** The Python values the client handles: what [json.loads] returns, and
    what the client puts in the query parameters and JSON bodies it
    builds. *)
#[warnings="-register-all"] Inductive JSON :=
| JNull
| JBool (b : bool)
| JNum (z : Z)
| JStr (s : string)
| JArr (l : list JSON)
| JObj (m : gmap string JSON).

(** What the client reads of a [requests.Response]. *)
Record Response := {
  status_code : Z;
  reason : string;
  url : string;
  text : string }.

Inductive Exn :=
| HTTPError (msg : string) (response : Response)  (* requests.exceptions.HTTPError *)
| JSONDecodeError (doc : string)                  (* a subclass of ValueError *)
| ValueError (msg : string)
| KeyError (key : string)
| TypeError (msg : string)
| OSError (filename : string)
| ConnectionError (msg : string).                 (* any failure of the transport *)


(** [isinstance(e, ValueError)] *)
Definition is_ValueError (e : Exn) : bool :=
  match e with
  | JSONDecodeError _ | ValueError _ => true
  | _ => false
  end.

(** The arguments of one [Session.request] call, with the session it is
    issued on. *)
Record Request := {
  req_session : Session;
  req_method : string;
  req_url : string;
  req_params : option (gmap string JSON);
  req_data : option (list Byte.byte);
  req_json : option (gmap string JSON);
  req_headers : gmap string string }.

Inductive Level := DEBUG | INFO | ERROR.

(** [bool(d)] for an optional dict: [None] and [{}] are falsy. *)
Definition truthy_dict {V} (d : option (gmap string V)) : bool :=
  match d with
  | Some m => bool_decide (m ≠ ∅)
  | None => false
  end.

(** [d.update(h)]: the keys of [h] win. *)
Definition dict_update {V} (d h : gmap string V) : gmap string V := h ∪ d.

(** ** The class hierarchy

    [WordPressClient] extends [APIClient] and overrides
    [_get_default_headers]; [_request] calls it on [self]. *)
Class APIClientClass (C : Type) := {
  as_APIClient : C → APIClient;
  _get_default_headers : C → gmap string string }.

(** [APIClient._get_default_headers] *)
Definition APIClient_get_default_headers (self : APIClient) : gmap string string :=
  {[ "Content-Type" := "application/json";
     "Accept" := "application/json";
     "User-Agent" := "BoomPahConnect/0.1.0" ]}.

#[export] Instance APIClient_class : APIClientClass APIClient := {
  as_APIClient := id;
  _get_default_headers := APIClient_get_default_headers }.

(** The state threaded through a call: the world outside the process (the
    network and the file system), the requests handed to the transport so
    far, and the records written to the logger. *)
Record State {World : Type} := {
  world : World;
  sent : list Request;
  logged : list (Level * string) }.
Arguments State World : clear implicits.

(** ** Test doubles

    Concrete stand-ins for the external collaborators, used to run the
    client on examples: a transport that replays canned answers, a decoder
    that knows a few documents, a MIME table with a few extensions, a file
    system with one missing file. *)

Module Double.

Definition World : Type := list (Response + Exn).

Definition session_request (w : World) (req : Request) : (Response + Exn) * World :=
  match w with
  | answer :: w' => (answer, w')
  | [] => (inr (ConnectionError "connection refused"), [])
  end.

Definition doc_id42 : string := "{" +:+ PyStr.dquote +:+ "id" +:+ PyStr.dquote +:+ ": 42}".
Definition doc_id42_titled : string :=
  "{" +:+ PyStr.dquote +:+ "id" +:+ PyStr.dquote +:+ ": 42, "
      +:+ PyStr.dquote +:+ "title" +:+ PyStr.dquote +:+ ": "
      +:+ PyStr.dquote +:+ "Logo" +:+ PyStr.dquote +:+ "}".
Definition doc_forbidden : string :=
  "{" +:+ PyStr.dquote +:+ "code" +:+ PyStr.dquote +:+ ": "
      +:+ PyStr.dquote +:+ "rest_forbidden" +:+ PyStr.dquote +:+ "}".

Definition documents : list (string * JSON) :=
  [ ("{}", JObj ∅);
    ("[]", JArr []);
    ("null", JNull);
    (doc_id42, JObj {[ "id" := JNum 42 ]});
    (doc_id42_titled, JObj {[ "id" := JNum 42; "title" := JStr "Logo" ]});
    (doc_forbidden, JObj {[ "code" := JStr "rest_forbidden" ]}) ].

Definition json_loads (s : string) : option JSON :=
  snd <$> List.find (λ d, String.eqb (fst d) s) documents.

Definition py_repr (v : JSON) : string :=
  match v with
  | JArr [] => "[]"
  | JArr _ => "[...]"
  | _ => "{...}"
  end.

(** [s.endswith(suffix)] *)
Definition endswith (suffix s : string) : bool :=
  let n := String.length s in
  let k := String.length suffix in
  (k <=? n)%nat && String.eqb (String.substring (n - k)%nat k s) suffix.

Definition guess_type (path : string) : option string :=
  if endswith ".png" path then Some "image/png"
  else if endswith ".jpg" path then Some "image/jpeg"
  else if endswith ".txt" path then Some "text/plain"
  else None.

Definition read_file (w : World) (path : string) : option (list Byte.byte) :=
  if String.eqb path "/missing.png" then None
  else Some ["137"%byte; "P"%byte; "N"%byte; "G"%byte].

Definition requests_default_headers : CaseInsensitiveDict :=
  {[ "user-agent" := ("User-Agent", "python-requests/2.31.0");
     "accept-encoding" := ("Accept-Encoding", "gzip, deflate");
     "accept" := ("Accept", "*/*");
     "connection" := ("Connection", "keep-alive") ]}.

Definition ok (body : string) : Response + Exn :=
  inl {| status_code := 200; reason := "OK"; url := "https://example.com/wp-json/x"; text := body |}.

Definition created (body : string) : Response + Exn :=
  inl {| status_code := 201; reason := "Created"; url := "https://example.com/wp-json/x"; text := body |}.

Definition forbidden (body : string) : Response :=
  {| status_code := 403; reason := "Forbidden"; url := "https://example.com/wp-json/x"; text := body |}.

(** The state before the first call, in a world [w]. *)
Definition st0 (w : World) : State World := {| world := w; sent := []; logged := [] |}.

Definition api : APIClient :=
  APIClient_init requests_default_headers "https://example.com/wp-json/".

End Double.

(** ** Computations: state, transport and exceptions *)

Inductive Outcome (A : Type) :=
| Return (a : A)
| Raise (e : Exn).
Arguments Return {A} a.
Arguments Raise {A} e.

(** ** [common/config.py]: [ConfigManager]

    The configuration is a dict of dicts: a [gmap string JSON] whose
    nested dicts are [JObj]. The methods mutate [self.config] in place; the
    embedding returns the dict as the call leaves it, together with the
    outcome, also when the call raises.

    Two things of the interpreter are outside the embedding. A nested dict
    is a value, so a dict object stored under two keys, which the code
    would mutate under both at once, is not represented. And the recursion
    of [_set_nested_key] has no limit of depth, where the interpreter
    raises [RecursionError] on a key with about a thousand dots. What is
    stated below is stated of calls that return, read under the key that
    was written. *)

Module ConfigManager.

(** [sep in s] together with [s.split(sep, 1)]: what comes before the
    first [sep] and what comes after it; [None] when [sep] is not in [s]. *)
Fixpoint partition (sep : ascii) (s : string) : option (string * string) :=
  match s with
  | EmptyString => None
  | String a s' =>
      if Ascii.eqb a sep then Some (EmptyString, s')
      else match partition sep s' with
           | Some (before, rest) => Some (String a before, rest)
           | None => None
           end
  end.

(** [s.split(sep)] *)
Fixpoint split (sep : ascii) (s : string) : list string :=
  match s with
  | EmptyString => [EmptyString]
  | String a s' =>
      if Ascii.eqb a sep then EmptyString :: split sep s'
      else match split sep s' with
           | part :: parts => String a part :: parts
           | [] => [String a EmptyString]
           end
  end.

(** [s.replace(a, b)] for single characters. *)
Fixpoint replace (a b : ascii) (s : string) : string :=
  match s with
  | EmptyString => EmptyString
  | String c s' => String (if Ascii.eqb c a then b else c) (replace a b s')
  end.

(** [s[n:]] *)
Fixpoint drop_chars (n : nat) (s : string) : string :=
  match n, s with
  | O, _ => s
  | S n', String _ s' => drop_chars n' s'
  | S _, EmptyString => EmptyString
  end.

(** The [TypeError] of [_set_nested_key] when it is called on a value
    [x] that is not a dict, with what is left of the key: [main_key not in
    x] fails on a value that is not iterable, and otherwise the assignment
    or the subscription fails. *)
Definition not_a_dict (x : JSON) (key : string) : Exn :=
  match partition "." key with
  | Some (main_key, _) =>
      match x with
      | JStr s =>
          match String.index 0 main_key s with
          | Some _ => TypeError "string indices must be integers"
          | None => TypeError "'str' object does not support item assignment"
          end
      | JArr _ => TypeError "list indices must be integers or slices, not str"
      | JNum _ => TypeError "argument of type 'int' is not iterable"
      | JBool _ => TypeError "argument of type 'bool' is not iterable"
      | _ => TypeError "argument of type 'NoneType' is not iterable"
      end
  | None =>
      match x with
      | JStr _ => TypeError "'str' object does not support item assignment"
      | JArr _ => TypeError "list indices must be integers or slices, not str"
      | JNum _ => TypeError "'int' object does not support item assignment"
      | JBool _ => TypeError "'bool' object does not support item assignment"
      | _ => TypeError "'NoneType' object does not support item assignment"
      end
  end.

(** [ConfigManager._set_nested_key], on a dict. The recursion is on what
    is left of the key after its first dot; [fuel] bounds its depth. *)
Fixpoint set_nested_key_fuel (fuel : nat) (config_dict : gmap string JSON)
    (key : string) (value : JSON) : Outcome unit * gmap string JSON :=
  match partition "." key with
  | Some (main_key, rest) =>
      match fuel with
      | O => (Return tt, config_dict)
      | S fuel' =>
          match config_dict !! main_key with
          | None =>
              let '(outcome, sub) := set_nested_key_fuel fuel' ∅ rest value in
              (outcome, <[main_key := JObj sub]> config_dict)
          | Some (JObj sub) =>
              let '(outcome, sub') := set_nested_key_fuel fuel' sub rest value in
              (outcome, <[main_key := JObj sub']> config_dict)
          | Some x => (Raise (not_a_dict x rest), config_dict)
          end
      end
  | None => (Return tt, <[key := value]> config_dict)
  end.

(** A key of [n] characters has fewer than [n] dots. *)
Definition _set_nested_key (config_dict : gmap string JSON) (key : string) (value : JSON)
    : Outcome unit * gmap string JSON :=
  set_nested_key_fuel (String.length key) config_dict key value.

(** [ConfigManager.set] *)
Definition set (config : gmap string JSON) (key : string) (value : JSON)
    : Outcome unit * gmap string JSON :=
  _set_nested_key config key value.

(** The loop of [ConfigManager.get] over the parts of the key. *)
Fixpoint get_loop (parts : list string) (value : JSON) (default : JSON) : JSON :=
  match parts with
  | [] => value
  | part :: parts' =>
      match value with
      | JObj d =>
          match d !! part with
          | Some v => get_loop parts' v default
          | None => default
          end
      | _ => default
      end
  end.

(** [ConfigManager.get]; [default] defaults to [None]. *)
Definition get (config : gmap string JSON) (key : string) (default : JSON) : JSON :=
  get_loop (split "." key) (JObj config) default.

(** [key[len(prefix):].lower().replace("_", ".")] *)
Definition config_key (prefix key : string) : string :=
  replace "_" "." (PyStr.lower (drop_chars (String.length prefix) key)).

(** [ConfigManager.load_from_env] over the items of [os.environ], in
    their order; the default [prefix] is ["BOOMPAH_"]. An exception of
    [_set_nested_key] ends the loop, and the final record is not logged. *)
Fixpoint load_from_env_loop (items : list (string * string)) (prefix : string)
    (config : gmap string JSON) : Outcome unit * gmap string JSON :=
  match items with
  | [] => (Return tt, config)
  | (key, value) :: items' =>
      if String.prefix prefix key then
        match _set_nested_key config (config_key prefix key) (JStr value) with
        | (Return _, config') => load_from_env_loop items' prefix config'
        | (Raise e, config') => (Raise e, config')
        end
      else load_from_env_loop items' prefix config
  end.

Definition load_from_env (environ : list (string * string)) (prefix : string)
    (config : gmap string JSON) : Outcome unit * gmap string JSON * list (Level * string) :=
  match load_from_env_loop environ prefix config with
  | (Return _, config') =>
      (Return tt, config',
       [(INFO, "Loaded configuration from environment variables with prefix " +:+ prefix)])
  | (Raise e, config') => (Raise e, config', [])
  end.

End ConfigManager.

Section Client.

(** The world outside the process: the network and the file system. *)
Context {World : Type}.
(** [requests.Session.request]: answers with a response or fails. *)
Variable session_request : World → Request → (Response + Exn) * World.
(** [json.loads] *)
Variable json_loads : string → option JSON.
(** [repr] of a list or a dict. *)
Variable py_repr : JSON → string.
(** The first component of [mimetypes.guess_type]. *)
Variable guess_type : string → option string.
(** [open(path, 'rb').read()]: [None] when the file cannot be read. *)
Variable read_file : World → string → option (list Byte.byte).

Definition M (A : Type) : Type := State World → Outcome A * State World.

Definition ret {A} (a : A) : M A := λ st, (Return a, st).

Definition raise {A} (e : Exn) : M A := λ st, (Raise e, st).

Definition bind {A B} (m : M A) (k : A → M B) : M B := λ st,
  match m st with
  | (Return a, st') => k a st'
  | (Raise e, st') => (Raise e, st')
  end.

(** [try: body  except <the exceptions on which handler is defined>]. *)
Definition try_except {A} (body : M A) (handler : Exn → option (M A)) : M A := λ st,
  match body st with
  | (Return a, st') => (Return a, st')
  | (Raise e, st') =>
      match handler e with
      | Some h => h st'
      | None => (Raise e, st')
      end
  end.

Definition log (lvl : Level) (msg : string) : M unit := λ st,
  (Return tt, {| world := world st; sent := sent st; logged := logged st ++ [(lvl, msg)] |}).

Definition send (req : Request) : M Response := λ st,
  let '(res, w) := session_request (world st) req in
  let st' := {| world := w; sent := sent st ++ [req]; logged := logged st |} in
  match res with
  | inl r => (Return r, st')
  | inr e => (Raise e, st')
  end.

Definition open_read (path : string) : M (list Byte.byte) := λ st,
  match read_file (world st) path with
  | Some bytes => (Return bytes, st)
  | None => (Raise (OSError path), st)
  end.

#[export] Instance M_ret : MRet M := @ret.
#[export] Instance M_bind : MBind M := λ A B k m, bind m k.

(** [str(v)] as an f-string renders it. *)
Definition py_str (v : JSON) : string :=
  match v with
  | JNull => "None"
  | JBool true => "True"
  | JBool false => "False"
  | JNum z => PyStr.of_int z
  | JStr s => s
  | JArr _ | JObj _ => py_repr v
  end.

(** [requests.Response.raise_for_status] *)
Definition http_error_msg (r : Response) : string :=
  if (400 <=? status_code r) && (status_code r <? 500) then
    PyStr.of_int (status_code r) +:+ " Client Error: " +:+ reason r +:+ " for url: " +:+ url r
  else if (500 <=? status_code r) && (status_code r <? 600) then
    PyStr.of_int (status_code r) +:+ " Server Error: " +:+ reason r +:+ " for url: " +:+ url r
  else "".

Definition raise_for_status (r : Response) : M unit :=
  if PyStr.truthy (http_error_msg r) then raise (HTTPError (http_error_msg r) r)
  else ret tt.

(** [requests.Response.json] *)
Definition Response_json (r : Response) : M JSON :=
  match json_loads (text r) with
  | Some v => ret v
  | None => raise (JSONDecodeError (text r))
  end.

(** *** [APIClient._request] *)

(** Lines 55-57: the defaults of the class of [self], updated with the
    headers of the caller when there are any. *)
Definition effective_headers `{APIClientClass C} (self : C)
    (headers : option (gmap string string)) : gmap string string :=
  let default_headers := _get_default_headers self in
  match headers with
  | Some h => if truthy_dict headers then dict_update default_headers h else default_headers
  | None => default_headers
  end.

(** Lines 76-80: the diagnostic detail of a failed response. *)
Definition error_detail_of (response : Response) : M JSON :=
  try_except (Response_json response)
    (λ _, Some (ret (JStr (text response)))).

Definition _request `{APIClientClass C} (self : C) (method endpoint : string)
    (params : option (gmap string JSON)) (data : option (list Byte.byte))
    (json : option (gmap string JSON)) (headers : option (gmap string string)) : M JSON :=
  let url := request_url (as_APIClient self) endpoint in
  let default_headers := effective_headers self headers in
  log DEBUG ("Making " +:+ method +:+ " request to " +:+ url) ;;
  response ← send {| req_session := session (as_APIClient self);
                     req_method := method;
                     req_url := url;
                     req_params := params;
                     req_data := data;
                     req_json := json;
                     req_headers := default_headers |};
  try_except
    (raise_for_status response ;;
     Response_json response)
    (λ e,
      match e with
      | HTTPError msg _ =>
          Some (log ERROR ("HTTP error: " +:+ msg) ;;
                error_detail ← error_detail_of response;
                log ERROR ("Error details: " +:+ py_str error_detail) ;;
                raise e)
      | _ => if is_ValueError e then Some (ret (JObj ∅)) else None
      end).

(** The arguments [_request] hands to [self.session.request]. *)
Definition request_of `{APIClientClass C} (self : C) (method endpoint : string)
    (params : option (gmap string JSON)) (data : option (list Byte.byte))
    (json : option (gmap string JSON)) (headers : option (gmap string string)) : Request :=
  {| req_session := session (as_APIClient self);
     req_method := method;
     req_url := request_url (as_APIClient self) endpoint;
     req_params := params;
     req_data := data;
     req_json := json;
     req_headers := effective_headers self headers |}.

Definition get `{APIClientClass C} (self : C) (endpoint : string)
    (params : option (gmap string JSON)) : M JSON :=
  _request self "GET" endpoint params None None None.

Definition post `{APIClientClass C} (self : C) (endpoint : string)
    (data : option (list Byte.byte)) (json : option (gmap string JSON))
    (headers : option (gmap string string)) : M JSON :=
  _request self "POST" endpoint None data json headers.

Definition put `{APIClientClass C} (self : C) (endpoint : string)
    (data : option (list Byte.byte)) (json : option (gmap string JSON))
    (headers : option (gmap string string)) : M JSON :=
  _request self "PUT" endpoint None data json headers.

Definition delete `{APIClientClass C} (self : C) (endpoint : string)
    (params : option (gmap string JSON)) : M JSON :=
  _request self "DELETE" endpoint params None None None.


(** ** [WordPressClient] *)

(** The headers of a fresh [requests.Session()]. *)
Variable requests_default_headers : CaseInsensitiveDict.

Record WordPressClient := {
  wp_super : APIClient;          (* the fields set by [super().__init__] *)
  user_agent : option string;
  username : option string;
  password : option string;
  auth_token : option string }.

(** [bool(x)] for the optional arguments: [None], [""], [[]] and [0]
    are falsy. *)
Definition truthy_str (o : option string) : bool :=
  match o with
  | Some s => PyStr.truthy s
  | None => false
  end.

Definition truthy_list (o : option (list Z)) : bool :=
  match o with
  | Some (_ :: _) => true
  | _ => false
  end.

Definition truthy_int (o : option Z) : bool :=
  match o with
  | Some z => negb (z =? 0)
  | None => false
  end.

(** [WordPressClient.__init__] *)
Definition WordPressClient_init (base : string)
    (username password auth_token user_agent : option string) : WordPressClient :=
  let super := APIClient_init requests_default_headers base in
  let headers := session_headers (session super) in
  let headers :=
    if truthy_str username && truthy_str password then
      let auth_string := default "" username +:+ ":" +:+ default "" password in
      let encoded_auth := Base64.encode_str auth_string in
      cid_update1 "Authorization" ("Basic " +:+ encoded_auth) headers
    else if truthy_str auth_token then
      cid_update1 "Authorization" ("Bearer " +:+ default "" auth_token) headers
    else headers in
  {| wp_super := {| base_url := base_url super;
                    session := {| session_headers := headers |} |};
     user_agent := user_agent;
     username := username;
     password := password;
     auth_token := auth_token |}.

(** The constructor call [WordPressClient(...)] as a step of a
    computation: it builds the object and does nothing else. *)
Definition WordPressClient_new (base : string)
    (username password auth_token user_agent : option string) : M WordPressClient :=
  ret (WordPressClient_init base username password auth_token user_agent).

(** [WordPressClient._get_default_headers] *)
Definition WordPressClient_get_default_headers (self : WordPressClient) : gmap string string :=
  let headers := APIClient_get_default_headers (wp_super self) in
  let headers := <["Content-Type" := "application/json"]> headers in
  if truthy_str (user_agent self) then <["User-Agent" := default "" (user_agent self)]> headers
  else headers.

#[export] Instance WordPressClient_class : APIClientClass WordPressClient := {
  as_APIClient := wp_super;
  _get_default_headers := WordPressClient_get_default_headers }.

(** [if x: d[k] = v], for the three types of optional argument. *)
Definition set_if_str (k : string) (x : option string) (d : gmap string JSON) : gmap string JSON :=
  if truthy_str x then <[k := JStr (default "" x)]> d else d.

Definition set_if_list (k : string) (x : option (list Z)) (d : gmap string JSON) : gmap string JSON :=
  if truthy_list x then <[k := JArr (JNum <$> default [] x)]> d else d.

Definition set_if_int (k : string) (x : option Z) (d : gmap string JSON) : gmap string JSON :=
  if truthy_int x then <[k := JNum (default 0 x)]> d else d.

(** [",".join(map(str, ids))] *)
Definition comma_join (ids : list Z) : string := PyStr.join "," (PyStr.of_int <$> ids).

(** *** Posts *)

(** The [params] dict of [get_posts] (lines 92-105). The defaults of the
    signature are [limit=10], [page=1], [status="publish"], and [None]
    for the three filters. *)
Definition get_posts_params (limit page : Z) (search : option string)
    (categories tags : option (list Z)) (status : string) : gmap string JSON :=
  let params : gmap string JSON :=
    {[ "per_page" := JNum limit; "page" := JNum page; "status" := JStr status ]} in
  let params := set_if_str "search" search params in
  let params :=
    if truthy_list categories then <["categories" := JStr (comma_join (default [] categories))]> params
    else params in
  let params :=
    if truthy_list tags then <["tags" := JStr (comma_join (default [] tags))]> params
    else params in
  params.

Definition get_posts (self : WordPressClient) (limit page : Z) (search : option string)
    (categories tags : option (list Z)) (status : string) : M JSON :=
  get self "wp/v2/posts" (Some (get_posts_params limit page search categories tags status)).

Definition get_post (self : WordPressClient) (post_id : Z) : M JSON :=
  get self ("wp/v2/posts/" +:+ PyStr.of_int post_id) None.

(** The [data] dict of [create_post]; [status] defaults to ["draft"]. *)
Definition create_post_data (title content status : string) (excerpt : option string)
    (categories tags : option (list Z)) (featured_media : option Z) : gmap string JSON :=
  let data : gmap string JSON :=
    {[ "title" := JStr title; "content" := JStr content; "status" := JStr status ]} in
  let data := set_if_str "excerpt" excerpt data in
  let data := set_if_list "categories" categories data in
  let data := set_if_list "tags" tags data in
  let data := set_if_int "featured_media" featured_media data in
  data.

Definition create_post (self : WordPressClient) (title content status : string)
    (excerpt : option string) (categories tags : option (list Z))
    (featured_media : option Z) : M JSON :=
  post self "wp/v2/posts" None
    (Some (create_post_data title content status excerpt categories tags featured_media)) None.

(** The [data] dict of [update_post] (lines 193-214); every argument
    but [post_id] defaults to [None]. *)
Definition update_post_data (title content status excerpt : option string)
    (categories tags : option (list Z)) (featured_media : option Z) : gmap string JSON :=
  let data : gmap string JSON := ∅ in
  let data := set_if_str "title" title data in
  let data := set_if_str "content" content data in
  let data := set_if_str "status" status data in
  let data := set_if_str "excerpt" excerpt data in
  let data := set_if_list "categories" categories data in
  let data := set_if_list "tags" tags data in
  let data := set_if_int "featured_media" featured_media data in
  data.

Definition update_post (self : WordPressClient) (post_id : Z)
    (title content status excerpt : option string)
    (categories tags : option (list Z)) (featured_media : option Z) : M JSON :=
  post self ("wp/v2/posts/" +:+ PyStr.of_int post_id) None
    (Some (update_post_data title content status excerpt categories tags featured_media)) None.

Definition delete_post (self : WordPressClient) (post_id : Z) (force : bool) : M JSON :=
  let params : gmap string JSON := {[ "force" := JStr (if force then "true" else "false") ]} in
  delete self ("wp/v2/posts/" +:+ PyStr.of_int post_id) (Some params).

Definition get_me (self : WordPressClient) : M JSON :=
  get self "wp/v2/users/me" None.

(** *** Media *)

(** [os.path.basename] (posixpath): what follows the last slash. *)
Definition os_path_basename (p : string) : string := PyStr.after_last "/" p.

(** The [headers] dict of [upload_media] (lines 291-301). *)
Definition upload_media_headers (file_path : string) : gmap string string :=
  let filename := os_path_basename file_path in
  let mime_type := guess_type file_path in
  let mime_type :=
    if negb (truthy_str mime_type) then "application/octet-stream"
    else default "" mime_type in
  {[ "Content-Disposition" := "attachment; filename=" +:+ PyStr.dquote +:+ filename +:+ PyStr.dquote;
     "Content-Type" := mime_type ]}.

(** The [metadata] dict of [upload_media] (lines 311-320). *)
Definition upload_media_metadata (title caption alt_text : option string) : gmap string JSON :=
  let metadata : gmap string JSON := ∅ in
  let metadata := set_if_str "title" title metadata in
  let metadata := set_if_str "caption" caption metadata in
  let metadata := set_if_str "alt_text" alt_text metadata in
  metadata.

(** [v[k]] for a string key [k]. *)
Definition subscript (v : JSON) (k : string) : M JSON :=
  match v with
  | JObj m =>
      match m !! k with
      | Some x => ret x
      | None => raise (KeyError k)
      end
  | JArr _ => raise (TypeError "list indices must be integers or slices, not str")
  | JStr _ => raise (TypeError "string indices must be integers")
  | _ => raise (TypeError "object is not subscriptable")
  end.

Definition upload_media (self : WordPressClient) (file_path : string)
    (title caption alt_text : option string) : M JSON :=
  let headers := upload_media_headers file_path in
  media_data ← open_read file_path;
  response ← post self "wp/v2/media" (Some media_data) None (Some headers);
  if truthy_str title || truthy_str caption || truthy_str alt_text then
    media_id ← subscript response "id";
    let metadata := upload_media_metadata title caption alt_text in
    if truthy_dict (Some metadata) then
      post self ("wp/v2/media/" +:+ py_str media_id) None (Some metadata) None
    else ret response
  else ret response.

(** ** The template project

    [templates/wordpress_project/config.py] runs when the module is
    imported; [wp_client.py] imports it, then builds the singleton. *)

Record Config := {
  WP_BASE_URL : option string;
  WP_USERNAME : option string;
  WP_PASSWORD : option string;
  WP_AUTH_TOKEN : option string }.

Definition PROJECT_NAME : string := "WordPress-Project".
Definition PROJECT_VERSION : string := "1.0.0".

(** The body of [config.py] over the environment [environ] (after
    [load_dotenv()]); [os.getenv] is the lookup. *)
Definition config_module (environ : gmap string string) : M Config :=
  let WP_BASE_URL := environ !! "WP_BASE_URL" in
  let WP_USERNAME := environ !! "WP_USERNAME" in
  let WP_PASSWORD := environ !! "WP_PASSWORD" in
  let WP_AUTH_TOKEN := environ !! "WP_AUTH_TOKEN" in
  if negb (truthy_str WP_BASE_URL) then
    raise (ValueError "WP_BASE_URL environment variable is required")
  else if negb (truthy_str WP_USERNAME && truthy_str WP_PASSWORD)
          && negb (truthy_str WP_AUTH_TOKEN) then
    raise (ValueError "Either WP_USERNAME and WP_PASSWORD or WP_AUTH_TOKEN environment variables are required")
  else
    ret {| WP_BASE_URL := WP_BASE_URL;
           WP_USERNAME := WP_USERNAME;
           WP_PASSWORD := WP_PASSWORD;
           WP_AUTH_TOKEN := WP_AUTH_TOKEN |}.

(** [str(e)] *)
Definition str_exn (e : Exn) : string :=
  match e with
  | HTTPError msg _ => msg
  | JSONDecodeError doc => doc
  | ValueError msg => msg
  | KeyError key => "'" +:+ key +:+ "'"
  | TypeError msg => msg
  | OSError filename => filename
  | ConnectionError msg => msg
  end.

(** [WordPressClientWrapper._initialize] *)
Definition WordPressClientWrapper_initialize (cfg : Config) : M WordPressClient :=
  log INFO ("Initializing WordPress client with base URL: " +:+ default "" (WP_BASE_URL cfg)) ;;
  let custom_user_agent := PROJECT_NAME +:+ "/" +:+ PROJECT_VERSION in
  client ← WordPressClient_new (default "" (WP_BASE_URL cfg)) (WP_USERNAME cfg)
             (WP_PASSWORD cfg) (WP_AUTH_TOKEN cfg) (Some custom_user_agent);
  try_except
    (get_me client ;;
     log INFO "Successfully connected to WordPress API")
    (λ e, Some (log ERROR ("Failed to connect to WordPress API: " +:+ str_exn e) ;;
                raise e)) ;;
  ret client.

(** Importing [wp_client.py]: the import of [config], then the
    singleton [wp_client = WordPressClientWrapper()]. *)
Definition wp_client_module (environ : gmap string string) : M WordPressClient :=
  cfg ← config_module environ;
  WordPressClientWrapper_initialize cfg.

(** *** Categories, tags, users, comments *)

(** The [params] dict of [get_categories], [get_tags] and [get_users];
    [limit] defaults to 10 and [page] to 1. *)
Definition page_params (limit page : Z) : gmap string JSON :=
  {[ "per_page" := JNum limit; "page" := JNum page ]}.

Definition get_categories (self : WordPressClient) (limit page : Z) : M JSON :=
  get self "wp/v2/categories" (Some (page_params limit page)).

Definition get_tags (self : WordPressClient) (limit page : Z) : M JSON :=
  get self "wp/v2/tags" (Some (page_params limit page)).

Definition get_users (self : WordPressClient) (limit page : Z) : M JSON :=
  get self "wp/v2/users" (Some (page_params limit page)).

(** The [params] dict of [get_comments] (lines 372-378); [post_id]
    defaults to [None]. *)
Definition get_comments_params (post_id : option Z) (limit page : Z) : gmap string JSON :=
  let params := page_params limit page in
  let params := set_if_int "post" post_id params in
  params.

Definition get_comments (self : WordPressClient) (post_id : option Z) (limit page : Z) : M JSON :=
  get self "wp/v2/comments" (Some (get_comments_params post_id limit page)).

(** *** The singleton of [wp_client.py] *)

(** An instance of [WordPressClientWrapper]: its one attribute, unset
    until [_initialize] assigns it. *)
Record WordPressClientWrapper := { wrapper_client : option WordPressClient }.

(** [WordPressClientWrapper()], that is [__new__]: the class attribute
    [_instance] before the call is an argument and the attribute after the
    call is returned beside the outcome, since it is assigned before
    [_initialize] runs and stays assigned when [_initialize] raises (the
    client is assigned before the probe). *)
Definition WordPressClientWrapper_new (cfg : Config) (_instance : option WordPressClientWrapper)
    (st : State World)
    : Outcome WordPressClientWrapper * option WordPressClientWrapper * State World :=
  match _instance with
  | Some instance => (Return instance, Some instance, st)
  | None =>
      let client :=
        WordPressClient_init (default "" (WP_BASE_URL cfg)) (WP_USERNAME cfg)
          (WP_PASSWORD cfg) (WP_AUTH_TOKEN cfg)
          (Some (PROJECT_NAME +:+ "/" +:+ PROJECT_VERSION)) in
      let instance := {| wrapper_client := Some client |} in
      match WordPressClientWrapper_initialize cfg st with
      | (Return _, st') => (Return instance, Some instance, st')
      | (Raise e, st') => (Raise e, Some instance, st')
      end
  end.

(** * Properties *)

(** ** Strings and URLs *)

Lemma append_String a s t : String a s +:+ t = String a (s +:+ t).
Proof. reflexivity. Qed.

Lemma lstrip_decompose c s :
  ∃ n, s = PyStr.times c n +:+ PyStr.lstrip c s
       ∧ PyStr.startswith c (PyStr.lstrip c s) = false.
Proof.
  induction s as [|a s IH]; simpl.
  - exists 0%nat. done.
  - destruct (Ascii.eqb a c) eqn:E.
    + apply Ascii.eqb_eq in E as ->.
      destruct IH as (n & Hs & Hn). exists (S n). split; [|exact Hn].
      cbn [PyStr.times]. rewrite append_String. by f_equal.
    + exists 0%nat. split; [done|]. simpl. exact E.
Qed.

Lemma rstrip_decompose c s :
  ∃ n, s = PyStr.rstrip c s +:+ PyStr.times c n
       ∧ PyStr.endswith c (PyStr.rstrip c s) = false.
Proof.
  induction s as [|a s IH]; cbn [PyStr.rstrip].
  - exists 0%nat. done.
  - destruct IH as (n & Hs & Hn).
    destruct (PyStr.rstrip c s) as [|b r] eqn:R.
    + destruct (Ascii.eqb a c) eqn:E.
      * apply Ascii.eqb_eq in E as ->. exists (S n). split; [|done].
        cbn [PyStr.times]. change (String c s = String c (PyStr.times c n)).
        f_equal. exact Hs.
      * exists n. split; [|by simpl; rewrite E].
        rewrite append_String. f_equal. exact Hs.
    + exists n. split; [|exact Hn].
      rewrite append_String. f_equal. exact Hs.
Qed.

Example rstrip_all : PyStr.rstrip "/" "https://example.com/wp-json///" = "https://example.com/wp-json".
Proof. reflexivity. Qed.

Example lstrip_all : PyStr.lstrip "/" "//wp/v2/posts/" = "wp/v2/posts/".
Proof. reflexivity. Qed.

Example request_url_slashes :
  request_url (APIClient_init ∅ "https://example.com/wp-json/") "/wp/v2/posts"
  = "https://example.com/wp-json/wp/v2/posts".
Proof. reflexivity. Qed.

(** C4: for every base URL and every endpoint, whatever the number of
    slashes that end the base URL and that start the endpoint, the URL
    built for a client constructed from that base URL is the base without
    its trailing slashes, one slash, and the endpoint without its leading
    slashes: exactly one slash separates base and path. *)
Theorem request_url_one_slash (hdrs : CaseInsensitiveDict) (base endpoint : string) :
  ∃ (b p : string) (n m : nat),
    base = b +:+ PyStr.times "/" n ∧
    endpoint = PyStr.times "/" m +:+ p ∧
    PyStr.endswith "/" b = false ∧
    PyStr.startswith "/" p = false ∧
    request_url (APIClient_init hdrs base) endpoint = b +:+ "/" +:+ p.
Proof.
  destruct (rstrip_decompose "/" base) as (n & Hb & Hbe).
  destruct (lstrip_decompose "/" endpoint) as (m & Hp & Hps).
  exists (PyStr.rstrip "/" base), (PyStr.lstrip "/" endpoint), n, m.
  repeat split; assumption.
Qed.

(** ** [raise_for_status] and the decoder *)

Lemma truthy_append_r s t : PyStr.truthy t = true → PyStr.truthy (s +:+ t) = true.
Proof. destruct s; [done|]. by rewrite append_String. Qed.

(** [raise_for_status] raises exactly on the status codes 400 to 599. *)
Lemma http_error_msg_truthy r :
  PyStr.truthy (http_error_msg r) = bool_decide (400 ≤ status_code r < 600).
Proof.
  unfold http_error_msg.
  destruct (400 <=? status_code r) eqn:H4, (status_code r <? 500) eqn:H5; simpl;
    try (rewrite truthy_append_r by done; symmetry; apply bool_decide_eq_true; lia).
  - destruct (500 <=? status_code r) eqn:H6, (status_code r <? 600) eqn:H7; simpl;
      try (rewrite truthy_append_r by done; symmetry; apply bool_decide_eq_true; lia);
      symmetry; apply bool_decide_eq_false; lia.
  - destruct (500 <=? status_code r) eqn:H6, (status_code r <? 600) eqn:H7; simpl;
      try (symmetry; apply bool_decide_eq_false; lia); lia.
  - destruct (500 <=? status_code r) eqn:H6, (status_code r <? 600) eqn:H7; simpl;
      try (symmetry; apply bool_decide_eq_false; lia); lia.
Qed.

(** ** What one call of [_request] does *)

Lemma error_detail_of_run r st :
  error_detail_of r st = (Return (default (JStr (text r)) (json_loads (text r))), st).
Proof.
  unfold error_detail_of, try_except, Response_json.
  by destruct (json_loads (text r)).
Qed.

(** The whole behaviour of [_request], by cases on the answer of the
    transport. *)
Lemma _request_run `{APIClientClass C} (self : C) method endpoint params data json headers st :
  let req := request_of self method endpoint params data json headers in
  let dbg := (DEBUG, "Making " +:+ method +:+ " request to " +:+ req_url req) in
  _request self method endpoint params data json headers st =
    match session_request (world st) req with
    | (inr e, w) =>
        (Raise e, {| world := w; sent := sent st ++ [req]; logged := logged st ++ [dbg] |})
    | (inl r, w) =>
        if bool_decide (400 ≤ status_code r < 600) then
          (Raise (HTTPError (http_error_msg r) r),
           {| world := w; sent := sent st ++ [req];
              logged := logged st ++
                [dbg;
                 (ERROR, "HTTP error: " +:+ http_error_msg r);
                 (ERROR, "Error details: "
                           +:+ py_str (default (JStr (text r)) (json_loads (text r))))] |})
        else
          (Return (default (JObj ∅) (json_loads (text r))),
           {| world := w; sent := sent st ++ [req]; logged := logged st ++ [dbg] |})
    end.
Proof.
  intros req dbg. subst req dbg.
  unfold _request, request_of, mbind, M_bind, bind, log, send.
  cbn [world sent logged req_url].
  destruct (session_request (world st) _) as [[r|e] w]; [|done].
  unfold try_except, raise_for_status.
  rewrite http_error_msg_truthy. case_bool_decide.
  - unfold raise at 1. cbn. rewrite error_detail_of_run. cbn.
    unfold raise. by rewrite <- !app_assoc.
  - unfold ret at 1. unfold Response_json.
    by destruct (json_loads (text r)).
Qed.


(** ** The error path and the success path of [_request] *)


(** C3: when the transport answers with a response whose status code is
    2xx, [_request] returns and does not raise: it returns the decoded
    value when the body is valid JSON, and the empty mapping when the
    body is not valid JSON, in particular when the body is empty (which
    no JSON decoder accepts). *)
Theorem request_success_decoding `{APIClientClass C} (self : C)
    method endpoint params data json headers st r w :
  session_request (world st) (request_of self method endpoint params data json headers)
    = (inl r, w) →
  200 ≤ status_code r < 300 →
  json_loads "" = None →
  ∃ v st',
    _request self method endpoint params data json headers st = (Return v, st') ∧
    v = match json_loads (text r) with
        | Some decoded => decoded
        | None => JObj ∅
        end ∧
    (text r = "" → v = JObj ∅).
Proof.
  intros Hsend Hstatus Hempty.
  pose proof (_request_run self method endpoint params data json headers st) as Hrun.
  cbv zeta in Hrun. rewrite Hsend, bool_decide_eq_false_2 in Hrun by lia.
  eexists _, _. split; [exact Hrun|]. split.
  - by destruct (json_loads (text r)).
  - intros ->. by rewrite Hempty.
Qed.

(** ** Headers *)

Lemma effective_headers_lookup `{APIClientClass C} (self : C) headers k :
  effective_headers self headers !! k =
    match headers ≫= (λ h : gmap string string, h !! k) with
    | Some v => Some v
    | None => _get_default_headers self !! k
    end.
Proof.
  unfold effective_headers. destruct headers as [h|]; [|done]. cbn.
  case_bool_decide as Hne.
  - unfold dict_update. rewrite lookup_union. by destruct (h !! k), (_ !! k).
  - rewrite Hne. by rewrite lookup_empty.
Qed.

Lemma _request_sent `{APIClientClass C} (self : C) method endpoint params data json headers st :
  sent (_request self method endpoint params data json headers st).2
  = sent st ++ [request_of self method endpoint params data json headers].
Proof.
  rewrite _request_run. cbv zeta.
  destruct (session_request _ _) as [[r|e] w]; [|done].
  by case_bool_decide.
Qed.

Lemma APIClient_default_headers_dom (self : APIClient) :
  dom (_get_default_headers self) = ({[ "Content-Type"; "Accept"; "User-Agent" ]} : gset string).
Proof.
  cbn. unfold APIClient_get_default_headers.
  rewrite !dom_insert_L, dom_singleton_L. set_solver.
Qed.

Lemma WordPressClient_default_headers_dom (self : WordPressClient) :
  dom (_get_default_headers self) = ({[ "Content-Type"; "Accept"; "User-Agent" ]} : gset string).
Proof.
  cbn. unfold WordPressClient_get_default_headers, APIClient_get_default_headers.
  destruct (truthy_str (user_agent self));
    rewrite !dom_insert_L, dom_singleton_L; set_solver.
Qed.

(** C5: whatever headers the caller passes, the request that [_request]
    hands to the transport has, under each key the caller gave, the
    value the caller gave, and under every other key the default value
    of that key: the defaults are overridden key by key and the keys
    that are not overridden stay, with their default values. The
    defaults, for the base client and for the WordPress client alike,
    are the three keys Content-Type, Accept and User-Agent. *)
Theorem request_headers_override `{APIClientClass C} (self : C)
    method endpoint params data json (headers : option (gmap string string)) st :
  (∃ req,
     sent (_request self method endpoint params data json headers st).2 = sent st ++ [req] ∧
     ∀ k, req_headers req !! k =
            match headers ≫= (λ h : gmap string string, h !! k) with
            | Some v => Some v
            | None => _get_default_headers self !! k
            end) ∧
  (∀ a : APIClient,
     dom (_get_default_headers a) = ({[ "Content-Type"; "Accept"; "User-Agent" ]} : gset string)) ∧
  (∀ wp : WordPressClient,
     dom (_get_default_headers wp) = ({[ "Content-Type"; "Accept"; "User-Agent" ]} : gset string)).
Proof.
  split; [|split].
  - eexists. split; [apply _request_sent|].
    intros k. apply effective_headers_lookup.
  - apply APIClient_default_headers_dom.
  - apply WordPressClient_default_headers_dom.
Qed.

(** ** Construction and authentication *)

Lemma truthy_str_Some (o : option string) :
  truthy_str o = true ↔ ∃ s, o = Some s ∧ s ≠ "".
Proof.
  destruct o as [[|a s]|]; simpl; split; try done.
  - by intros (s & [= <-] & Hs).
  - intros _. by eexists.
  - by intros (s & ? & _).
Qed.

Lemma cid_get_update1_eq k v d : cid_get k (cid_update1 k v d) = Some v.
Proof. unfold cid_get, cid_update1. by rewrite lookup_insert_eq. Qed.

Lemma cid_get_update1_ne k k' v d :
  PyStr.lower k ≠ PyStr.lower k' → cid_get k' (cid_update1 k v d) = cid_get k' d.
Proof. intros Hne. unfold cid_get, cid_update1. by rewrite lookup_insert_ne. Qed.

(** The Authorization header after construction, by cases. *)
Lemma init_authorization_cases base username password auth_token user_agent :
  cid_get "Authorization"
    (session_headers (session (wp_super
       (WordPressClient_init base username password auth_token user_agent)))) =
    if truthy_str username && truthy_str password then
      Some ("Basic " +:+ Base64.encode_str (default "" username +:+ ":" +:+ default "" password))
    else if truthy_str auth_token then Some ("Bearer " +:+ default "" auth_token)
    else cid_get "Authorization" requests_default_headers.
Proof.
  unfold WordPressClient_init. cbn [wp_super session session_headers APIClient_init].
  destruct (truthy_str username && truthy_str password).
  - apply cid_get_update1_eq.
  - destruct (truthy_str auth_token); [apply cid_get_update1_eq|done].
Qed.

(** C8, as the code has it: the Authorization header of the session
    after construction goes by the truthiness of the arguments, an empty
    string counting as an argument that is not given. With a username and
    a password both non-empty, it is [Basic base64(username:password)]
    whether or not a token is given, and the session is the one built
    without the token: the token is ignored. Otherwise, with a non-empty
    token, it is [Bearer <token>], also when a username or a password was
    given with the other one empty or missing. Otherwise the headers of
    the session are left as [requests] made them. The session has one
    Authorization entry, under whatever capitalisation it is read, so at
    most one scheme is active; construction changes no other header; and
    every request the client issues afterwards is sent on the session
    built at construction. *)
Theorem init_authorization base username password auth_token user_agent :
  let self := WordPressClient_init base username password auth_token user_agent in
  let headers := session_headers (session (wp_super self)) in
  (∀ u p, username = Some u → password = Some p → u ≠ "" → p ≠ "" →
     cid_get "Authorization" headers
       = Some ("Basic " +:+ Base64.encode_str (u +:+ ":" +:+ p)) ∧
     session (wp_super self)
       = session (wp_super (WordPressClient_init base username password None user_agent))) ∧
  (∀ t, auth_token = Some t → t ≠ "" →
     truthy_str username && truthy_str password = false →
     cid_get "Authorization" headers = Some ("Bearer " +:+ t)) ∧
  (∀ k, PyStr.lower k = "authorization" →
     cid_get k headers = cid_get "Authorization" headers) ∧
  (∀ k, PyStr.lower k ≠ "authorization" →
     cid_get k headers = cid_get k requests_default_headers) ∧
  (∀ method endpoint params data json hdrs st req,
     req ∈ sent (_request self method endpoint params data json hdrs st).2 →
     req ∈ sent st ∨ req_session req = session (wp_super self)) ∧
  (truthy_str username && truthy_str password = false →
   truthy_str auth_token = false →
   headers = requests_default_headers).
Proof.
  intros self headers. repeat split.
  - subst headers self. rewrite init_authorization_cases.
    assert (truthy_str username = true) as -> by (apply truthy_str_Some; eauto).
    assert (truthy_str password = true) as -> by (apply truthy_str_Some; eauto).
    by subst.
  - subst self. unfold WordPressClient_init.
    assert (truthy_str username = true) as -> by (apply truthy_str_Some; eauto).
    assert (truthy_str password = true) as -> by (apply truthy_str_Some; eauto).
    done.
  - intros t -> Ht Hpair. subst headers self.
    rewrite init_authorization_cases, Hpair.
    assert (truthy_str (Some t) = true) as -> by (apply truthy_str_Some; eauto).
    done.
  - intros k Hk. unfold cid_get. by rewrite Hk.
  - intros k Hk. subst headers self. unfold WordPressClient_init.
    cbn [wp_super session session_headers APIClient_init].
    destruct (truthy_str username && truthy_str password);
      [|destruct (truthy_str auth_token)];
      try done; apply cid_get_update1_ne; intros Heq; apply Hk; symmetry; exact Heq.
  - intros method endpoint params data json hdrs st req.
    rewrite _request_sent, elem_of_app, list_elem_of_singleton.
    intros [?| ->]; [by left|by right].
  - intros Hpair Htoken. subst headers self. unfold WordPressClient_init.
    by rewrite Hpair, Htoken.
Qed.

(** The validation of [config.py]: what it raises and when. *)
Lemma config_module_missing_credentials environ st :
  truthy_str (environ !! "WP_USERNAME") && truthy_str (environ !! "WP_PASSWORD") = false →
  truthy_str (environ !! "WP_AUTH_TOKEN") = false →
  ∃ msg, config_module environ st = (Raise (ValueError msg), st).
Proof.
  intros Hpair Htoken. unfold config_module.
  destruct (truthy_str (environ !! "WP_BASE_URL")); cbn [negb]; [|by eexists].
  rewrite Hpair, Htoken. by eexists.
Qed.

(** C2, as the code has it: the constructor of [WordPressClient] never
    raises. Without a username/password pair and without a token it
    returns the client, leaves the state as it was (no request is sent)
    and leaves the headers of the session as [requests] made them (no
    Authorization header is added). The configuration error belongs to
    the template project: with the same credentials missing from the
    environment, importing its client module raises [ValueError] from
    the validation of [config.py], before the client is constructed and
    with no request sent. *)
Theorem construction_without_credentials base username password auth_token user_agent st :
  truthy_str username && truthy_str password = false →
  truthy_str auth_token = false →
  let self := WordPressClient_init base username password auth_token user_agent in
  WordPressClient_new base username password auth_token user_agent st = (Return self, st) ∧
  session_headers (session (wp_super self)) = requests_default_headers ∧
  (∀ environ : gmap string string,
     environ !! "WP_USERNAME" = username →
     environ !! "WP_PASSWORD" = password →
     environ !! "WP_AUTH_TOKEN" = auth_token →
     ∃ msg, wp_client_module environ st = (Raise (ValueError msg), st)).
Proof.
  intros Hpair Htoken self. split; [done|]. split.
  - subst self. unfold WordPressClient_init. by rewrite Hpair, Htoken.
  - intros environ Hu Hp Ht. subst username password auth_token.
    destruct (config_module_missing_credentials environ st Hpair Htoken) as [msg Hmsg].
    exists msg. unfold wp_client_module, mbind, M_bind, bind. by rewrite Hmsg.
Qed.

(** ** The dicts the resource methods build *)

Lemma set_if_str_lookup k x (d : gmap string JSON) k' :
  set_if_str k x d !! k' =
    if decide (k = k') then (if truthy_str x then JStr <$> x else d !! k') else d !! k'.
Proof.
  unfold set_if_str. destruct x as [[|a s]|]; cbn; case_decide; simplify_map_eq; done.
Qed.

Lemma set_if_list_lookup k x (d : gmap string JSON) k' :
  set_if_list k x d !! k' =
    if decide (k = k') then
      (if truthy_list x then (λ l, JArr (JNum <$> l)) <$> x else d !! k')
    else d !! k'.
Proof.
  unfold set_if_list. destruct x as [[|a l]|]; cbn; case_decide; simplify_map_eq; done.
Qed.

Lemma set_if_int_lookup k x (d : gmap string JSON) k' :
  set_if_int k x d !! k' =
    if decide (k = k') then (if truthy_int x then JNum <$> x else d !! k') else d !! k'.
Proof.
  unfold set_if_int, truthy_int. destruct x as [z|]; cbn; [|by case_decide].
  destruct (z =? 0); cbn; case_decide; simplify_map_eq; done.
Qed.

Ltac lookup_dict :=
  repeat (progress (rewrite ?set_if_str_lookup, ?set_if_list_lookup, ?set_if_int_lookup,
                      ?lookup_empty);
          repeat case_decide; try done).

Lemma set_if_str_dom k x (d : gmap string JSON) : dom (set_if_str k x d) ⊆ {[k]} ∪ dom d.
Proof. unfold set_if_str. destruct (truthy_str x); [rewrite dom_insert|]; set_solver. Qed.

Lemma set_if_list_dom k x (d : gmap string JSON) : dom (set_if_list k x d) ⊆ {[k]} ∪ dom d.
Proof. unfold set_if_list. destruct (truthy_list x); [rewrite dom_insert|]; set_solver. Qed.

Lemma set_if_int_dom k x (d : gmap string JSON) : dom (set_if_int k x d) ⊆ {[k]} ∪ dom d.
Proof. unfold set_if_int. destruct (truthy_int x); [rewrite dom_insert|]; set_solver. Qed.

(** The conditional assignments never store a null. *)
Lemma set_if_str_not_null k x (d : gmap string JSON) k' :
  set_if_str k x d !! k' = Some JNull → d !! k' = Some JNull.
Proof.
  rewrite set_if_str_lookup. case_decide; [|done].
  destruct (truthy_str x); [|done]. by destruct x.
Qed.

Lemma set_if_list_not_null k x (d : gmap string JSON) k' :
  set_if_list k x d !! k' = Some JNull → d !! k' = Some JNull.
Proof.
  rewrite set_if_list_lookup. case_decide; [|done].
  destruct (truthy_list x); [|done]. by destruct x.
Qed.

Lemma set_if_int_not_null k x (d : gmap string JSON) k' :
  set_if_int k x d !! k' = Some JNull → d !! k' = Some JNull.
Proof.
  rewrite set_if_int_lookup. case_decide; [|done].
  destruct (truthy_int x); [|done]. by destruct x.
Qed.

(** One step of a membership [k ∈ dom (...)] through an assignment. *)
Ltac dom_step Hk :=
  first [ apply set_if_str_dom in Hk | apply set_if_list_dom in Hk
        | apply set_if_int_dom in Hk | rewrite dom_insert in Hk ];
  apply elem_of_union in Hk as [Hk|Hk];
  [apply elem_of_singleton in Hk; subst; set_solver|].

Example update_post_title_only :
  update_post_data (Some "New") None None None None None None = {[ "title" := JStr "New" ]}.
Proof. reflexivity. Qed.

Example update_post_zero_media :
  update_post_data None None None None None None (Some 0) = ∅.
Proof. reflexivity. Qed.

Example comma_join_ids : comma_join [3; 14; 15] = "3,14,15".
Proof. reflexivity. Qed.

Example get_posts_params_defaults :
  get_posts_params 5 2 None None None "publish"
  = {[ "per_page" := JNum 5; "page" := JNum 2; "status" := JStr "publish" ]}.
Proof. reflexivity. Qed.

(** C6, as the code has it: [update_post] sends one POST to
    [posts/{id}] whose JSON body holds, of the seven optional fields,
    exactly those whose argument is truthy (a non-empty string, a
    non-empty list, a non-zero integer), each with the value the caller
    gave; an argument that is [None], empty or zero is left out, no
    other key is sent and no value is null. In particular
    [update_post(post_id=7, title="New")] sends [{"title": "New"}]. *)
Theorem update_post_body (self : WordPressClient) post_id
    title content status excerpt categories tags featured_media st :
  let data := update_post_data title content status excerpt categories tags featured_media in
  (∃ req,
     sent (update_post self post_id title content status excerpt
             categories tags featured_media st).2 = sent st ++ [req] ∧
     req_method req = "POST" ∧
     req_url req = base_url (wp_super self) +:+ "/wp/v2/posts/" +:+ PyStr.of_int post_id ∧
     req_json req = Some data) ∧
  data !! "title" = (if truthy_str title then JStr <$> title else None) ∧
  data !! "content" = (if truthy_str content then JStr <$> content else None) ∧
  data !! "status" = (if truthy_str status then JStr <$> status else None) ∧
  data !! "excerpt" = (if truthy_str excerpt then JStr <$> excerpt else None) ∧
  data !! "categories"
    = (if truthy_list categories then (λ l, JArr (JNum <$> l)) <$> categories else None) ∧
  data !! "tags"
    = (if truthy_list tags then (λ l, JArr (JNum <$> l)) <$> tags else None) ∧
  data !! "featured_media"
    = (if truthy_int featured_media then JNum <$> featured_media else None) ∧
  dom data ⊆ ({[ "title"; "content"; "status"; "excerpt";
                 "categories"; "tags"; "featured_media" ]} : gset string) ∧
  (∀ k, data !! k ≠ Some JNull) ∧
  update_post_data (Some "New") None None None None None None = {[ "title" := JStr "New" ]}.
Proof.
  intros data. split.
  { eexists. split; [apply _request_sent|]. done. }
  subst data. unfold update_post_data.
  split_and!; try (lookup_dict; by repeat case_match).
  - intros k Hk. do 7 dom_step Hk. set_solver.
  - intros k Hk.
    apply set_if_int_not_null, set_if_list_not_null, set_if_list_not_null,
      set_if_str_not_null, set_if_str_not_null, set_if_str_not_null,
      set_if_str_not_null in Hk.
    by rewrite lookup_empty in Hk.
Qed.

(** C7, as the code has it: [get_posts] sends one GET to [posts] whose
    query parameters always hold [per_page=limit], [page=page] and
    [status=status], and hold the key [search], [categories] or [tags]
    exactly when the argument is truthy (a non-empty string, a non-empty
    list), the lists as comma-joined decimal strings; a filter that is
    [None] or empty is left out. In particular
    [get_posts(limit=5, page=2)] yields
    [{per_page: 5, page: 2, status: "publish"}]. *)
Theorem get_posts_query (self : WordPressClient) limit page search categories tags status st :
  let params := get_posts_params limit page search categories tags status in
  (∃ req,
     sent (get_posts self limit page search categories tags status st).2 = sent st ++ [req] ∧
     req_method req = "GET" ∧
     req_url req = base_url (wp_super self) +:+ "/wp/v2/posts" ∧
     req_params req = Some params) ∧
  params !! "per_page" = Some (JNum limit) ∧
  params !! "page" = Some (JNum page) ∧
  params !! "status" = Some (JStr status) ∧
  params !! "search" = (if truthy_str search then JStr <$> search else None) ∧
  params !! "categories"
    = (if truthy_list categories then (λ l, JStr (comma_join l)) <$> categories else None) ∧
  params !! "tags"
    = (if truthy_list tags then (λ l, JStr (comma_join l)) <$> tags else None) ∧
  dom params ⊆ ({[ "per_page"; "page"; "status"; "search"; "categories"; "tags" ]} : gset string) ∧
  get_posts_params 5 2 None None None "publish"
    = {[ "per_page" := JNum 5; "page" := JNum 2; "status" := JStr "publish" ]}.
Proof.
  intros params. split.
  { eexists. split; [apply _request_sent|]. done. }
  subst params. unfold get_posts_params.
  split_and!; [..|done].
  - destruct (truthy_list tags), (truthy_list categories);
      rewrite ?lookup_insert_ne by done; lookup_dict.
  - destruct (truthy_list tags), (truthy_list categories);
      rewrite ?lookup_insert_ne by done; lookup_dict.
  - destruct (truthy_list tags), (truthy_list categories);
      rewrite ?lookup_insert_ne by done; lookup_dict.
  - destruct (truthy_list tags), (truthy_list categories);
      rewrite ?lookup_insert_ne by done; lookup_dict.
  - destruct (truthy_list tags), categories as [[|c cs]|]; cbn [truthy_list];
      rewrite ?lookup_insert_ne by done; rewrite ?lookup_insert_eq; lookup_dict;
      reflexivity.
  - destruct tags as [[|c cs]|], (truthy_list categories); cbn [truthy_list];
      rewrite ?lookup_insert_ne by done; rewrite ?lookup_insert_eq; lookup_dict;
      reflexivity.
  - intros k Hk.
    assert (k ∈ dom (set_if_str "search" search
                       ({[ "per_page" := JNum limit; "page" := JNum page;
                           "status" := JStr status ]} : gmap string JSON))
            → k ∈ ({[ "per_page"; "page"; "status"; "search"; "categories"; "tags" ]}
                     : gset string)) as Hbase.
    { intros Hs. apply set_if_str_dom in Hs.
      rewrite !dom_insert, dom_singleton in Hs. set_solver. }
    destruct (truthy_list tags), (truthy_list categories);
      rewrite ?dom_insert in Hk; set_solver.
Qed.

(** ** Media upload *)

Lemma endswith_cons c a s : s ≠ "" → PyStr.endswith c (String a s) = PyStr.endswith c s.
Proof. by destruct s. Qed.

(** [os.path.basename] splits the path after its last slash. *)
Lemma after_last_decompose c s :
  ∃ d, s = d +:+ PyStr.after_last c s
       ∧ (d = "" ∨ PyStr.endswith c d = true)
       ∧ existsb (Ascii.eqb c) (list_ascii_of_string (PyStr.after_last c s)) = false.
Proof.
  induction s as [|a s IH]; cbn [PyStr.after_last].
  - exists "". auto.
  - destruct IH as (d & Hs & Hd & Hno).
    destruct (existsb (Ascii.eqb c) (list_ascii_of_string s)) eqn:E.
    + exists (String a d). split; [by rewrite append_String, <- Hs|]. split; [|done].
      right. destruct Hd as [->|Hd].
      * change (s = PyStr.after_last c s) in Hs. rewrite <- Hs in Hno. congruence.
      * rewrite endswith_cons; [done|]. by intros ->.
    + destruct (Ascii.eqb a c) eqn:Eac.
      * apply Ascii.eqb_eq in Eac as ->. exists (String c ""). split; [done|].
        split; [right; cbn; apply Ascii.eqb_refl|done].
      * exists "". split; [done|]. split; [by left|].
        cbn. by rewrite Ascii.eqb_sym, Eac, E.
Qed.

Example basename_nested : os_path_basename "/tmp/a/logo.png" = "logo.png".
Proof. reflexivity. Qed.

Example basename_plain : os_path_basename "logo.png" = "logo.png".
Proof. reflexivity. Qed.

Lemma subscript_state v k st : (subscript v k st).2 = st.
Proof.
  unfold subscript. destruct v as [| | | |l|m]; try done.
  by destruct (m !! k).
Qed.

Lemma upload_media_metadata_truthy title caption alt_text :
  truthy_str title || truthy_str caption || truthy_str alt_text = true →
  truthy_dict (Some (upload_media_metadata title caption alt_text)) = true.
Proof.
  intros Hany. cbn. apply bool_decide_eq_true.
  unfold upload_media_metadata, set_if_str.
  destruct (truthy_str alt_text); [apply insert_non_empty|].
  destruct (truthy_str caption); [apply insert_non_empty|].
  destruct (truthy_str title); [apply insert_non_empty|done].
Qed.

(** The whole behaviour of [upload_media], by cases. *)
Lemma upload_media_run (self : WordPressClient) file_path title caption alt_text st :
  upload_media self file_path title caption alt_text st =
    match read_file (world st) file_path with
    | None => (Raise (OSError file_path), st)
    | Some media_data =>
        match post self "wp/v2/media" (Some media_data) None
                (Some (upload_media_headers file_path)) st with
        | (Raise e, st1) => (Raise e, st1)
        | (Return response, st1) =>
            if truthy_str title || truthy_str caption || truthy_str alt_text then
              match subscript response "id" st1 with
              | (Return media_id, _) =>
                  post self ("wp/v2/media/" +:+ py_str media_id) None
                    (Some (upload_media_metadata title caption alt_text)) None st1
              | (Raise e, _) => (Raise e, st1)
              end
            else (Return response, st1)
        end
    end.
Proof.
  unfold upload_media, mbind, M_bind, bind, open_read.
  destruct (read_file (world st) file_path) as [media_data|]; [|done].
  destruct (post self "wp/v2/media" _ _ _ st) as [[response|e] st1]; [|done].
  destruct (truthy_str title || truthy_str caption || truthy_str alt_text) eqn:Hany; [|done].
  rewrite upload_media_metadata_truthy by done.
  pose proof (subscript_state response "id" st1) as Hst.
  destruct (subscript response "id" st1) as [[media_id|e] st2]; cbn in Hst; by subst.
Qed.

Lemma upload_media_sent (self : WordPressClient) file_path title caption alt_text st media_data :
  read_file (world st) file_path = Some media_data →
  ∃ rest,
    sent (upload_media self file_path title caption alt_text st).2
    = sent st ++ request_of self "POST" "wp/v2/media" None (Some media_data) None
                   (Some (upload_media_headers file_path)) :: rest.
Proof.
  intros Hread. rewrite upload_media_run, Hread.
  pose proof (_request_sent self "POST" "wp/v2/media" None (Some media_data) None
                (Some (upload_media_headers file_path)) st) as Hsent.
  unfold post.
  destruct (_request self "POST" "wp/v2/media" _ _ _ _ st) as [[response|e] st1];
    cbn [snd] in Hsent; [|by exists []].
  destruct (truthy_str title || truthy_str caption || truthy_str alt_text); [|by exists []].
  destruct (subscript response "id" st1) as [[media_id|e] st2]; [|by exists []].
  eexists [_]. rewrite _request_sent, Hsent, <- app_assoc. done.
Qed.

Lemma upload_media_headers_lookup file_path :
  upload_media_headers file_path !! "Content-Type"
    = Some (match guess_type file_path with
            | Some mime_type => if PyStr.truthy mime_type then mime_type
                                else "application/octet-stream"
            | None => "application/octet-stream"
            end)
  ∧ upload_media_headers file_path !! "Content-Disposition"
    = Some ("attachment; filename=" +:+ PyStr.dquote
              +:+ os_path_basename file_path +:+ PyStr.dquote).
Proof.
  unfold upload_media_headers. split.
  - rewrite lookup_insert_ne by done. rewrite lookup_singleton_eq.
    by destruct (guess_type file_path) as [[|a m]|].
  - by rewrite lookup_insert_eq.
Qed.

(** C9: for every path whose file can be read, the first request that
    [upload_media] issues is the POST of the bytes of the file to the
    media endpoint; its Content-Type header is the MIME type that
    [mimetypes.guess_type] infers for the path, [image/png] where it
    infers that (as it does for a [.png] file), and
    [application/octet-stream] where it infers none; its
    Content-Disposition header is [attachment; filename="<basename>"],
    the basename being what follows the last slash of the path. *)
Theorem upload_media_request_headers (self : WordPressClient)
    file_path title caption alt_text st media_data :
  read_file (world st) file_path = Some media_data →
  ∃ req rest dir,
    sent (upload_media self file_path title caption alt_text st).2 = sent st ++ req :: rest ∧
    req_method req = "POST" ∧
    req_url req = base_url (wp_super self) +:+ "/wp/v2/media" ∧
    req_data req = Some media_data ∧
    req_headers req !! "Content-Type"
      = Some (match guess_type file_path with
              | Some mime_type => if PyStr.truthy mime_type then mime_type
                                  else "application/octet-stream"
              | None => "application/octet-stream"
              end) ∧
    (guess_type file_path = Some "image/png" →
     req_headers req !! "Content-Type" = Some "image/png") ∧
    (guess_type file_path = None →
     req_headers req !! "Content-Type" = Some "application/octet-stream") ∧
    req_headers req !! "Content-Disposition"
      = Some ("attachment; filename=" +:+ PyStr.dquote
                +:+ os_path_basename file_path +:+ PyStr.dquote) ∧
    file_path = dir +:+ os_path_basename file_path ∧
    (dir = "" ∨ PyStr.endswith "/" dir = true) ∧
    existsb (Ascii.eqb "/") (list_ascii_of_string (os_path_basename file_path)) = false.
Proof.
  intros Hread.
  destruct (upload_media_sent self file_path title caption alt_text st media_data Hread)
    as [rest Hsent].
  destruct (after_last_decompose "/" file_path) as (dir & Hdir & Hend & Hno).
  destruct (upload_media_headers_lookup file_path) as [Htype Hdisp].
  eexists _, rest, dir. split; [exact Hsent|].
  cbn [request_of req_method req_url req_data req_headers].
  rewrite !effective_headers_lookup. cbn [mbind option_bind].
  rewrite Htype, Hdisp.
  split_and!; try done.
  - by intros ->.
  - by intros ->.
Qed.

(** C10: for a file that can be read. When at least one of title,
    caption and alt_text is supplied (non-empty) and both calls succeed
    (the upload returns a response that has an [id], the metadata update
    of [media/{id}] returns), [upload_media] returns the response of the
    second POST, after two requests. When none of them is supplied,
    [upload_media] is the one POST of the upload: exactly one request is
    issued, a POST, and its outcome is the outcome of the method. *)
Theorem upload_media_result (self : WordPressClient)
    file_path title caption alt_text st media_data :
  read_file (world st) file_path = Some media_data →
  let upload := post self "wp/v2/media" (Some media_data) None
                  (Some (upload_media_headers file_path)) in
  (truthy_str title || truthy_str caption || truthy_str alt_text = true →
   ∀ response st1 media_id updated st2,
     upload st = (Return response, st1) →
     subscript response "id" st1 = (Return media_id, st1) →
     post self ("wp/v2/media/" +:+ py_str media_id) None
       (Some (upload_media_metadata title caption alt_text)) None st1
       = (Return updated, st2) →
     upload_media self file_path title caption alt_text st = (Return updated, st2) ∧
     ∃ req1 req2,
       sent st2 = sent st ++ [req1; req2] ∧
       req_method req1 = "POST" ∧ req_method req2 = "POST" ∧
       req_url req2 = base_url (wp_super self) +:+ "/wp/v2/media/" +:+ py_str media_id) ∧
  (truthy_str title || truthy_str caption || truthy_str alt_text = false →
   upload_media self file_path title caption alt_text st = upload st ∧
   ∃ req,
     sent (upload_media self file_path title caption alt_text st).2 = sent st ++ [req] ∧
     req_method req = "POST") ∧
  (title = None → caption = None → alt_text = None →
   upload_media self file_path title caption alt_text st = upload st ∧
   ∃ req,
     sent (upload_media self file_path title caption alt_text st).2 = sent st ++ [req] ∧
     req_method req = "POST").
Proof.
  intros Hread upload.
  assert (truthy_str title || truthy_str caption || truthy_str alt_text = false →
          upload_media self file_path title caption alt_text st = upload st ∧
          ∃ req,
            sent (upload_media self file_path title caption alt_text st).2 = sent st ++ [req] ∧
            req_method req = "POST") as Hnone.
  { intros Hany.
    assert (upload_media self file_path title caption alt_text st = upload st) as Heq.
    { rewrite upload_media_run, Hread, Hany. fold upload.
      by destruct (upload st) as [[response|e] st1]. }
    split; [exact Heq|]. rewrite Heq. eexists. split; [apply _request_sent|done]. }
  split_and!.
  - intros Hany response st1 media_id updated st2 Hupload Hid Hupdate.
    split.
    + rewrite upload_media_run, Hread. fold upload. by rewrite Hupload, Hany, Hid.
    + pose proof (_request_sent self "POST" "wp/v2/media" None (Some media_data) None
                    (Some (upload_media_headers file_path)) st) as H1.
      fold (post self "wp/v2/media" (Some media_data) None
              (Some (upload_media_headers file_path))) in H1.
      fold upload in H1. rewrite Hupload in H1. cbn [snd] in H1.
      pose proof (_request_sent self "POST" ("wp/v2/media/" +:+ py_str media_id) None None
                    (Some (upload_media_metadata title caption alt_text)) None st1) as H2.
      fold (post self ("wp/v2/media/" +:+ py_str media_id) None
              (Some (upload_media_metadata title caption alt_text)) None) in H2.
      rewrite Hupdate in H2. cbn [snd] in H2.
      eexists _, _. split; [by rewrite H2, H1, <- app_assoc|]. done.
  - exact Hnone.
  - intros -> -> ->. by apply Hnone.
Qed.

(** * Further properties of the request executor *)

(** X1: whatever the transport answers, one call of [_request] hands
    exactly one request to it, on the session of the client, and leaves
    the world as that one exchange left it: a failure is never retried. *)
Theorem request_single_attempt `{APIClientClass C} (self : C)
    method endpoint params data json headers st :
  let req := request_of self method endpoint params data json headers in
  let st' := (_request self method endpoint params data json headers st).2 in
  sent st' = sent st ++ [req] ∧
  world st' = (session_request (world st) req).2 ∧
  req_session req = session (as_APIClient self).
Proof.
  intros req st'. subst st'. rewrite _request_run. cbv zeta. fold req.
  destruct (session_request (world st) req) as [[r|e] w]; [|done].
  by case_bool_decide.
Qed.

(** X2: once the transport has answered, [_request] raises exactly when
    the status code is between 400 and 599. Any other status code, a 1xx
    or a 3xx as well as a 2xx, is a success: the decoded body is returned,
    or the empty mapping when the body is not JSON. *)
Theorem request_raises_iff `{APIClientClass C} (self : C)
    method endpoint params data json headers st r w :
  session_request (world st) (request_of self method endpoint params data json headers)
    = (inl r, w) →
  ((∃ e st', _request self method endpoint params data json headers st = (Raise e, st'))
   ↔ 400 ≤ status_code r < 600) ∧
  (¬ 400 ≤ status_code r < 600 →
   (_request self method endpoint params data json headers st).1
   = Return (default (JObj ∅) (json_loads (text r)))).
Proof.
  intros Hsend.
  pose proof (_request_run self method endpoint params data json headers st) as Hrun.
  cbv zeta in Hrun. rewrite Hsend in Hrun. rewrite Hrun.
  case_bool_decide as Hstatus; split.
  - split; [done|]. intros _. by eexists _, _.
  - done.
  - split; [|done]. by intros (e & st' & [=]).
  - done.
Qed.

(** X3: an exception of the transport itself (no response at all)
    leaves [_request] as it is, whatever its class: it is not turned into
    the empty mapping even when it is a [ValueError], and nothing is
    logged about it beyond the debug record of the attempt. *)
Theorem request_transport_failure `{APIClientClass C} (self : C)
    method endpoint params data json headers st e w :
  session_request (world st) (request_of self method endpoint params data json headers)
    = (inr e, w) →
  ∃ st',
    _request self method endpoint params data json headers st = (Raise e, st') ∧
    logged st' = logged st ++ [(DEBUG, "Making " +:+ method +:+ " request to "
                                         +:+ request_url (as_APIClient self) endpoint)] ∧
    Forall (λ record, record.1 ≠ ERROR) (drop (List.length (logged st)) (logged st')).
Proof.
  intros Hsend.
  pose proof (_request_run self method endpoint params data json headers st) as Hrun.
  cbv zeta in Hrun. rewrite Hsend in Hrun.
  eexists. split; [exact Hrun|]. cbn [logged]. split; [done|].
  rewrite drop_app_length. by repeat constructor.
Qed.

(** ** URLs *)

Lemma rstrip_times c s n : PyStr.rstrip c (s +:+ PyStr.times c n) = PyStr.rstrip c s.
Proof.
  induction s as [|a s IH].
  - change ("" +:+ PyStr.times c n) with (PyStr.times c n).
    induction n as [|n IHn]; [done|].
    cbn [PyStr.times PyStr.rstrip]. rewrite IHn. cbn. by rewrite Ascii.eqb_refl.
  - rewrite append_String. cbn [PyStr.rstrip]. by rewrite IH.
Qed.

Lemma lstrip_times c s n : PyStr.lstrip c (PyStr.times c n +:+ s) = PyStr.lstrip c s.
Proof.
  induction n as [|n IHn]; [done|].
  cbn [PyStr.times]. rewrite append_String. cbn [PyStr.lstrip].
  by rewrite Ascii.eqb_refl.
Qed.

(** X4: the URL of a request does not depend on how many slashes end
    the base URL given to the constructor nor on how many start the
    endpoint: adding any number of either gives the same URL. *)
Theorem request_url_slash_invariant (hdrs : CaseInsensitiveDict) base endpoint n m :
  request_url (APIClient_init hdrs (base +:+ PyStr.times "/" n))
    (PyStr.times "/" m +:+ endpoint)
  = request_url (APIClient_init hdrs base) endpoint.
Proof.
  unfold request_url, APIClient_init. cbn [base_url].
  by rewrite rstrip_times, lstrip_times.
Qed.

(** * Further properties of the resource client *)

Example create_post_minimal :
  create_post_data "T" "C" "draft" None None None None
  = {[ "title" := JStr "T"; "content" := JStr "C"; "status" := JStr "draft" ]}.
Proof. reflexivity. Qed.

(** X5: [create_post] sends one POST to [posts] whose JSON body always
    holds the title, the content and the status, empty or not, and holds
    [excerpt], [categories], [tags] and [featured_media] only when the
    argument is truthy; there is no other key, no query parameter and no
    raw body. *)
Theorem create_post_body (self : WordPressClient) title content status
    excerpt categories tags featured_media st :
  let data := create_post_data title content status excerpt categories tags featured_media in
  (∃ req,
     sent (create_post self title content status excerpt
             categories tags featured_media st).2 = sent st ++ [req] ∧
     req_method req = "POST" ∧
     req_url req = base_url (wp_super self) +:+ "/wp/v2/posts" ∧
     req_json req = Some data ∧ req_params req = None ∧ req_data req = None) ∧
  data !! "title" = Some (JStr title) ∧
  data !! "content" = Some (JStr content) ∧
  data !! "status" = Some (JStr status) ∧
  data !! "excerpt" = (if truthy_str excerpt then JStr <$> excerpt else None) ∧
  data !! "categories"
    = (if truthy_list categories then (λ l, JArr (JNum <$> l)) <$> categories else None) ∧
  data !! "tags"
    = (if truthy_list tags then (λ l, JArr (JNum <$> l)) <$> tags else None) ∧
  data !! "featured_media"
    = (if truthy_int featured_media then JNum <$> featured_media else None) ∧
  dom data ⊆ ({[ "title"; "content"; "status"; "excerpt";
                 "categories"; "tags"; "featured_media" ]} : gset string).
Proof.
  intros data. split.
  { eexists. split; [unfold create_post, post; apply _request_sent|]. done. }
  subst data. unfold create_post_data.
  split_and!; [lookup_dict; by repeat case_match ..|].
  intros k Hk. do 4 dom_step Hk.
  rewrite !dom_insert, dom_singleton in Hk. set_solver.
Qed.

(** X6: [delete_post] sends one DELETE to [posts/{id}] whose only query
    parameter is [force], as the string ["true"] or ["false"] and never
    as a boolean, with no body. *)
Theorem delete_post_request (self : WordPressClient) post_id force st :
  ∃ req,
    sent (delete_post self post_id force st).2 = sent st ++ [req] ∧
    req_method req = "DELETE" ∧
    req_url req = base_url (wp_super self) +:+ "/wp/v2/posts/" +:+ PyStr.of_int post_id ∧
    req_params req = Some {[ "force" := JStr (if force then "true" else "false") ]} ∧
    req_json req = None ∧ req_data req = None ∧
    (∀ b, req_params req ≠ Some {[ "force" := JBool b ]}).
Proof.
  eexists. split; [apply _request_sent|].
  cbn [request_of req_method req_url req_params req_json req_data].
  split_and!; [done..|].
  by intros b [=].
Qed.

(** X7: [get_comments] sends one GET to [comments] with [per_page] and
    [page], and with the filter [post] exactly when [post_id] is truthy:
    a [post_id] of 0 filters nothing, like [None]. [get_categories],
    [get_tags] and [get_users] send [per_page] and [page] alone. *)
Theorem get_comments_query (self : WordPressClient) post_id limit page st :
  let params := get_comments_params post_id limit page in
  (∃ req,
     sent (get_comments self post_id limit page st).2 = sent st ++ [req] ∧
     req_method req = "GET" ∧
     req_url req = base_url (wp_super self) +:+ "/wp/v2/comments" ∧
     req_params req = Some params) ∧
  params !! "per_page" = Some (JNum limit) ∧
  params !! "page" = Some (JNum page) ∧
  params !! "post" = (if truthy_int post_id then JNum <$> post_id else None) ∧
  dom params ⊆ ({[ "per_page"; "page"; "post" ]} : gset string) ∧
  get_comments_params (Some 0) limit page = get_comments_params None limit page ∧
  (∀ req, req ∈ [request_of self "GET" "wp/v2/categories" (Some (page_params limit page)) None None None;
                 request_of self "GET" "wp/v2/tags" (Some (page_params limit page)) None None None;
                 request_of self "GET" "wp/v2/users" (Some (page_params limit page)) None None None] →
          ∃ ps, req_params req = Some ps ∧
                dom ps = ({[ "per_page"; "page" ]} : gset string)) ∧
  sent (get_categories self limit page st).2
    = sent st ++ [request_of self "GET" "wp/v2/categories" (Some (page_params limit page)) None None None] ∧
  sent (get_tags self limit page st).2
    = sent st ++ [request_of self "GET" "wp/v2/tags" (Some (page_params limit page)) None None None] ∧
  sent (get_users self limit page st).2
    = sent st ++ [request_of self "GET" "wp/v2/users" (Some (page_params limit page)) None None None].
Proof.
  intros params. subst params. unfold get_comments_params, page_params.
  split_and!.
  - eexists. split; [unfold get_comments, get; apply _request_sent|].
    cbn [request_of req_method req_url req_params]. by split_and!.
  - rewrite set_if_int_lookup. by case_decide.
  - rewrite set_if_int_lookup. by case_decide.
  - rewrite set_if_int_lookup. case_decide; [|done]. by destruct (truthy_int post_id).
  - intros k Hk. dom_step Hk. rewrite dom_insert, dom_singleton in Hk. set_solver.
  - reflexivity.
  - intros req Hreq. eexists. split.
    + set_unfold in Hreq. destruct Hreq as [->|[->|[->|[]]]]; reflexivity.
    + rewrite dom_insert_L, dom_singleton_L. set_solver.
  - unfold get_categories, get. apply _request_sent.
  - unfold get_tags, get. apply _request_sent.
  - unfold get_users, get. apply _request_sent.
Qed.

(** * Failures of [upload_media] *)

(** X8: no rollback. When the upload succeeded and the metadata update
    fails, [upload_media] raises the error of the second call; two POSTs
    have been sent and nothing after them: no request deletes or undoes
    the upload. *)
Theorem upload_media_no_rollback (self : WordPressClient)
    file_path title caption alt_text st media_data response st1 media_id e st2 :
  read_file (world st) file_path = Some media_data →
  truthy_str title || truthy_str caption || truthy_str alt_text = true →
  post self "wp/v2/media" (Some media_data) None (Some (upload_media_headers file_path)) st
    = (Return response, st1) →
  subscript response "id" st1 = (Return media_id, st1) →
  post self ("wp/v2/media/" +:+ py_str media_id) None
    (Some (upload_media_metadata title caption alt_text)) None st1 = (Raise e, st2) →
  upload_media self file_path title caption alt_text st = (Raise e, st2) ∧
  ∃ req1 req2,
    sent st2 = sent st ++ [req1; req2] ∧
    req_method req1 = "POST" ∧ req_url req1 = base_url (wp_super self) +:+ "/wp/v2/media" ∧
    req_method req2 = "POST" ∧
    req_url req2 = base_url (wp_super self) +:+ "/wp/v2/media/" +:+ py_str media_id.
Proof.
  intros Hread Hany Hupload Hid Hupdate. split.
  - by rewrite upload_media_run, Hread, Hupload, Hany, Hid.
  - unfold post in Hupload, Hupdate.
    pose proof (_request_sent self "POST" "wp/v2/media" None (Some media_data) None
                  (Some (upload_media_headers file_path)) st) as H1.
    rewrite Hupload in H1. cbn [snd] in H1.
    pose proof (_request_sent self "POST" ("wp/v2/media/" +:+ py_str media_id) None None
                  (Some (upload_media_metadata title caption alt_text)) None st1) as H2.
    rewrite Hupdate in H2. cbn [snd] in H2.
    eexists _, _. split; [by rewrite H2, H1, <- app_assoc|]. done.
Qed.

(** X9: the leniency of [_request] meets the metadata step. When the
    upload is answered with a success status and a body that is not JSON
    (an empty body for instance) and a title, caption or alt_text is
    given, [upload_media] raises [KeyError('id')]: the file has been
    uploaded by the one request sent, the metadata is never sent. *)
Theorem upload_media_missing_id (self : WordPressClient)
    file_path title caption alt_text st media_data r w :
  read_file (world st) file_path = Some media_data →
  truthy_str title || truthy_str caption || truthy_str alt_text = true →
  session_request (world st)
    (request_of self "POST" "wp/v2/media" None (Some media_data) None
       (Some (upload_media_headers file_path))) = (inl r, w) →
  ¬ 400 ≤ status_code r < 600 →
  json_loads (text r) = None →
  ∃ st1 req,
    upload_media self file_path title caption alt_text st = (Raise (KeyError "id"), st1) ∧
    sent st1 = sent st ++ [req] ∧ req_method req = "POST" ∧ req_data req = Some media_data.
Proof.
  intros Hread Hany Hsend Hstatus Hjson.
  pose proof (_request_run self "POST" "wp/v2/media" None (Some media_data) None
                (Some (upload_media_headers file_path)) st) as Hrun.
  cbv zeta in Hrun. rewrite Hsend, bool_decide_eq_false_2, Hjson in Hrun by done.
  eexists _, _. split.
  - rewrite upload_media_run, Hread. unfold post. rewrite Hrun, Hany. reflexivity.
  - done.
Qed.

(** X10: a file that cannot be read: [upload_media] raises the error
    of [open] and leaves the state as it was, so no request is sent and
    nothing is logged. *)
Theorem upload_media_unreadable (self : WordPressClient) file_path title caption alt_text st :
  read_file (world st) file_path = None →
  upload_media self file_path title caption alt_text st = (Raise (OSError file_path), st).
Proof. intros Hread. by rewrite upload_media_run, Hread. Qed.

(** * The headers of the WordPress client *)

(** X11: unless the caller's headers name it, the User-Agent of a
    request of a [WordPressClient] is the custom user agent given to the
    constructor when it is non-empty, and the user agent of the base
    client otherwise (also for an empty custom one); Accept is always
    [application/json] in that case. *)
Theorem wordpress_user_agent base username password auth_token custom_user_agent
    method endpoint params data json headers :
  let self := WordPressClient_init base username password auth_token custom_user_agent in
  let req := request_of self method endpoint params data json headers in
  (∀ h : gmap string string, headers = Some h → h !! "User-Agent" = None) →
  req_headers req !! "User-Agent"
  = Some (match custom_user_agent with
          | Some ua => if PyStr.truthy ua then ua else "BoomPahConnect/0.1.0"
          | None => "BoomPahConnect/0.1.0"
          end).
Proof.
  intros self req Hh. subst req. cbn [request_of req_headers].
  rewrite effective_headers_lookup.
  assert (headers ≫= (λ h : gmap string string, h !! "User-Agent") = None) as ->.
  { destruct headers as [h|]; [|done]. cbn. by apply Hh. }
  cbn. unfold WordPressClient_get_default_headers, APIClient_get_default_headers.
  subst self. cbn [WordPressClient_init user_agent].
  destruct custom_user_agent as [[|a ua]|]; cbn [truthy_str PyStr.truthy default];
    by simplify_map_eq.
Qed.

(** * The template project *)

(** X12: the validation of [config.py] accepts an environment exactly
    when the base URL is set and non-empty and either the username and the
    password are both non-empty or the token is; a missing base URL is
    reported first, whatever the credentials. It changes nothing else. *)
Theorem config_module_accepts (environ : gmap string string) st :
  ((∃ cfg, config_module environ st = (Return cfg, st)) ↔
   truthy_str (environ !! "WP_BASE_URL") = true ∧
   (truthy_str (environ !! "WP_USERNAME") && truthy_str (environ !! "WP_PASSWORD")
    || truthy_str (environ !! "WP_AUTH_TOKEN")) = true) ∧
  (truthy_str (environ !! "WP_BASE_URL") = false →
   config_module environ st
   = (Raise (ValueError "WP_BASE_URL environment variable is required"), st)) ∧
  (∀ cfg st', config_module environ st = (Return cfg, st') →
     st' = st ∧
     WP_BASE_URL cfg = environ !! "WP_BASE_URL" ∧
     WP_USERNAME cfg = environ !! "WP_USERNAME" ∧
     WP_PASSWORD cfg = environ !! "WP_PASSWORD" ∧
     WP_AUTH_TOKEN cfg = environ !! "WP_AUTH_TOKEN").
Proof.
  unfold config_module, ret, raise.
  destruct (truthy_str (environ !! "WP_BASE_URL")),
    (truthy_str (environ !! "WP_USERNAME") && truthy_str (environ !! "WP_PASSWORD")),
    (truthy_str (environ !! "WP_AUTH_TOKEN")); cbn [negb andb orb].
  all: split_and!; [split|..].
  all: try (intros _; by eexists).
  all: try (by intros (cfg & [=])).
  all: try (by intros [[=] [=]]).
  all: try (by intros [_ [=]]).
  all: try (by intros [[=] _]).
  all: try done.
  all: by intros cfg st' [= <- <-].
Qed.

(** The whole behaviour of [_initialize], by the outcome of the probe. *)
Lemma WordPressClientWrapper_initialize_run cfg st :
  let client := WordPressClient_init (default "" (WP_BASE_URL cfg)) (WP_USERNAME cfg)
                  (WP_PASSWORD cfg) (WP_AUTH_TOKEN cfg)
                  (Some (PROJECT_NAME +:+ "/" +:+ PROJECT_VERSION)) in
  let st0 := {| world := world st; sent := sent st;
                logged := logged st ++ [(INFO, "Initializing WordPress client with base URL: "
                                                 +:+ default "" (WP_BASE_URL cfg))] |} in
  WordPressClientWrapper_initialize cfg st =
    match get_me client st0 with
    | (Return _, st1) =>
        (Return client,
         {| world := world st1; sent := sent st1;
            logged := logged st1 ++ [(INFO, "Successfully connected to WordPress API")] |})
    | (Raise e, st1) =>
        (Raise e,
         {| world := world st1; sent := sent st1;
            logged := logged st1 ++ [(ERROR, "Failed to connect to WordPress API: "
                                               +:+ str_exn e)] |})
    end.
Proof.
  intros client st0.
  unfold WordPressClientWrapper_initialize, WordPressClient_new, mbind, M_bind, bind,
    try_except, log, ret, raise.
  cbn [world sent logged]. fold client. fold st0.
  by destruct (get_me client st0) as [[v|e] st1].
Qed.

(** X13: the connectivity probe. Building the wrapper's client sends
    exactly one request, a GET of [users/me] on the new client's session,
    with the project's user agent. If that call raises, the same exception
    leaves [_initialize], after an error record; if it returns, the client
    is returned, after a success record, and the answer is discarded. *)
Theorem wrapper_probe cfg st :
  let client := WordPressClient_init (default "" (WP_BASE_URL cfg)) (WP_USERNAME cfg)
                  (WP_PASSWORD cfg) (WP_AUTH_TOKEN cfg) (Some "WordPress-Project/1.0.0") in
  let run := WordPressClientWrapper_initialize cfg st in
  (∃ req,
     sent run.2 = sent st ++ [req] ∧
     req_method req = "GET" ∧
     req_url req = base_url (wp_super client) +:+ "/wp/v2/users/me" ∧
     req_session req = session (wp_super client) ∧
     req_headers req !! "User-Agent" = Some "WordPress-Project/1.0.0") ∧
  ((∃ v, run.1 = Return v) →
   run.1 = Return client ∧
   last (logged run.2) = Some (INFO, "Successfully connected to WordPress API")) ∧
  (∀ e, run.1 = Raise e →
   last (logged run.2) = Some (ERROR, "Failed to connect to WordPress API: " +:+ str_exn e) ∧
   ∃ st0 st1, sent st0 = sent st ∧ world st0 = world st ∧ get_me client st0 = (Raise e, st1)).
Proof.
  intros client run. subst run.
  rewrite WordPressClientWrapper_initialize_run. cbv zeta.
  change (PROJECT_NAME +:+ "/" +:+ PROJECT_VERSION) with "WordPress-Project/1.0.0".
  fold client.
  set (st0 := {| world := world st; sent := sent st; logged := _ |}).
  pose proof (_request_sent client "GET" "wp/v2/users/me" None None None None st0) as Hsent.
  change (_request client "GET" "wp/v2/users/me" None None None None st0)
    with (get_me client st0) in Hsent.
  destruct (get_me client st0) as [[v|e] st1] eqn:Hme; cbn [fst snd sent logged] in *.
  - split_and!.
    + eexists. split; [exact Hsent|]. by split_and!.
    + intros _. split; [done|]. apply last_snoc.
    + by intros e [=].
  - split_and!.
    + eexists. split; [exact Hsent|]. by split_and!.
    + by intros (v & [=]).
    + intros e' [= <-]. split; [apply last_snoc|]. by exists st0, st1.
Qed.

Lemma wrapper_probe_sent cfg st :
  ∃ req, sent (WordPressClientWrapper_initialize cfg st).2 = sent st ++ [req].
Proof.
  rewrite WordPressClientWrapper_initialize_run. cbv zeta.
  set (client := WordPressClient_init _ _ _ _ _).
  set (st0 := {| world := world st; sent := sent st; logged := _ |}).
  pose proof (_request_sent client "GET" "wp/v2/users/me" None None None None st0) as Hsent.
  change (_request client "GET" "wp/v2/users/me" None None None None st0)
    with (get_me client st0) in Hsent.
  destruct (get_me client st0) as [[v|e] st1]; cbn [snd sent] in *; by eexists.
Qed.

Lemma rstrip_String c a s :
  PyStr.rstrip c (String a s) =
    match PyStr.rstrip c s with
    | EmptyString => if Ascii.eqb a c then EmptyString else String a EmptyString
    | r => String a r
    end.
Proof. reflexivity. Qed.

Lemma rstrip_clean c s : PyStr.endswith c s = false → PyStr.rstrip c s = s.
Proof.
  induction s as [|a s IH]; [done|].
  destruct s as [|b s].
  - cbn. by intros ->.
  - intros Hend. rewrite endswith_cons in Hend by done.
    by rewrite rstrip_String, (IH Hend).
Qed.

(** X19: the singleton. Whatever the first construction of the wrapper
    did, it leaves an instance behind, and a construction that finds an
    instance returns it as it is: it sends no request, logs nothing, never
    raises and keeps the instance. The server is probed at most once, and
    a wrapper whose probe failed is handed out unverified afterwards. *)
Theorem wrapper_singleton cfg _instance st :
  let first := WordPressClientWrapper_new cfg _instance st in
  let second := WordPressClientWrapper_new cfg first.1.2 first.2 in
  (∃ instance,
     first.1.2 = Some instance ∧
     second = (Return instance, Some instance, first.2)) ∧
  (_instance = None →
   ∃ req client,
     sent first.2 = sent st ++ [req] ∧
     sent second.2 = sent first.2 ∧
     first.1.2 = Some {| wrapper_client := Some client |}).
Proof.
  intros first second. subst second first. unfold WordPressClientWrapper_new.
  destruct _instance as [instance|].
  - cbn. split; [|done]. by exists instance.
  - destruct (wrapper_probe_sent cfg st) as (req & Hsent).
    destruct (WordPressClientWrapper_initialize cfg st) as [[v|e] st'];
      cbn [fst snd] in *.
    + split; [by eexists|]. intros _. by eexists _, _.
    + split; [by eexists|]. intros _. by eexists _, _.
Qed.

(** X20: the base URL a client keeps never ends with a slash, and a
    base URL that is given without one is kept as it is; the WordPress
    client keeps the same base URL as the base client. *)
Theorem init_base_url (hdrs : CaseInsensitiveDict) base username password auth_token ua :
  PyStr.endswith "/" (base_url (APIClient_init hdrs base)) = false ∧
  (PyStr.endswith "/" base = false → base_url (APIClient_init hdrs base) = base) ∧
  base_url (wp_super (WordPressClient_init base username password auth_token ua))
  = base_url (APIClient_init hdrs base).
Proof.
  split_and!.
  - cbn [APIClient_init base_url].
    by destruct (rstrip_decompose "/" base) as (n & _ & Hend).
  - cbn [APIClient_init base_url]. apply rstrip_clean.
  - done.
Qed.

End Client.

(** * The client on concrete inputs

    The statements below run the client against the test doubles. *)



(** A 200 answer with an empty body: the empty mapping is returned. *)
Lemma request_success_decoding_witness :
  ∃ st',
    _request Double.session_request Double.json_loads Double.py_repr
      Double.api "DELETE" "wp/v2/posts/7" None None None None
      (Double.st0 [Double.ok ""])
    = (Return (JObj ∅), st').
Proof.
  destruct (request_success_decoding
              Double.session_request Double.json_loads Double.py_repr
              Double.api "DELETE" "wp/v2/posts/7" None None None None
              (Double.st0 [Double.ok ""])
              {| status_code := 200; reason := "OK";
                 url := "https://example.com/wp-json/x"; text := "" |} [])
    as (v & st' & Hrun & _ & Hempty).
  - reflexivity.
  - simpl. lia.
  - reflexivity.
  - exists st'. rewrite <- (Hempty eq_refl). exact Hrun.
Defined.

(** The claim C2 fails on the code: constructing a [WordPressClient]
    with no credentials at all does not raise. *)
Lemma construction_without_credentials_does_not_raise :
  ¬ ∃ e st',
      WordPressClient_new Double.requests_default_headers "https://example.com/wp-json"
        None None None None (Double.st0 [])
      = (Raise e, st').
Proof. intros (e & st' & H). discriminate H. Qed.

(** No credentials: the constructor returns; the template's client
    module raises from its validation, the canned answer unused. *)
Lemma construction_without_credentials_witness :
  (∃ self,
     WordPressClient_new Double.requests_default_headers "https://example.com/wp-json"
       None None None None (Double.st0 [Double.ok "{}"])
     = (Return self, Double.st0 [Double.ok "{}"])) ∧
  (∃ msg,
     wp_client_module Double.session_request Double.json_loads Double.py_repr
       Double.requests_default_headers {[ "WP_BASE_URL" := "https://example.com/wp-json" ]}
       (Double.st0 [Double.ok "{}"])
     = (Raise (ValueError msg), Double.st0 [Double.ok "{}"])).
Proof.
  pose proof (construction_without_credentials
                Double.session_request Double.json_loads Double.py_repr
                Double.requests_default_headers "https://example.com/wp-json"
                None None None None (Double.st0 [Double.ok "{}"]) eq_refl eq_refl) as H.
  cbv zeta in H. destruct H as (Hnew & _ & Hmodule).
  split; [eexists; exact Hnew|].
  apply Hmodule; reflexivity.
Defined.

(** The claim C6 fails on the code: a title that the caller supplies as
    the empty string is not in the body. *)
Lemma update_post_drops_supplied_empty_title :
  ¬ (is_Some (Some "" : option string) →
     is_Some (update_post_data (Some "") None None None None None None !! "title")).
Proof.
  intros H. destruct (H (mk_is_Some _ _ eq_refl)) as [v Hv]. discriminate Hv.
Qed.

(** The claim C7 fails on the code: a search term that the caller
    provides as the empty string gives no [search] key. *)
Lemma get_posts_drops_provided_empty_search :
  ¬ (is_Some (Some "" : option string) →
     is_Some (get_posts_params 10 1 (Some "") None None "publish" !! "search")).
Proof.
  intros H. destruct (H (mk_is_Some _ _ eq_refl)) as [v Hv]. discriminate Hv.
Qed.

(** The claim C8 fails on the code: a username, an empty password and a
    token are all supplied, and the header is not the Basic one of the
    pair but [Bearer tok]. *)
Lemma init_authorization_empty_password :
  ¬ (is_Some (Some "admin" : option string) ∧ is_Some (Some "" : option string)
     ∧ is_Some (Some "tok" : option string) →
     cid_get "Authorization"
       (session_headers (session (wp_super
          (WordPressClient_init Double.requests_default_headers "https://example.com/wp-json/"
             (Some "admin") (Some "") (Some "tok") None))))
     = Some ("Basic " +:+ Base64.encode_str ("admin" +:+ ":" +:+ ""))).
Proof.
  intros H.
  assert (is_Some (Some "admin" : option string) ∧ is_Some (Some "" : option string)
          ∧ is_Some (Some "tok" : option string)) as Hsupplied by (split_and!; by eexists).
  specialize (H Hsupplied). vm_compute in H. discriminate H.
Qed.

(** Username, password and token all non-empty: Basic, and the same
    session as without the token. *)
Lemma init_authorization_witness :
  cid_get "Authorization"
    (session_headers (session (wp_super
       (WordPressClient_init Double.requests_default_headers "https://example.com/wp-json/"
          (Some "admin") (Some "s3cret!") (Some "tok") None))))
  = Some "Basic YWRtaW46czNjcmV0IQ==".
Proof.
  pose proof (init_authorization
                Double.session_request Double.json_loads Double.py_repr
                Double.requests_default_headers "https://example.com/wp-json/"
                (Some "admin") (Some "s3cret!") (Some "tok") None) as H.
  cbv zeta in H. destruct H as (Hbasic & _).
  destruct (Hbasic "admin" "s3cret!" eq_refl eq_refl) as [Hauth _]; [done|done|].
  exact Hauth.
Defined.

(** Uploading [/tmp/a/logo.png]: image/png, and the basename in the
    Content-Disposition header. *)
Lemma upload_media_request_headers_witness :
  ∃ req rest,
    sent (upload_media Double.session_request Double.json_loads Double.py_repr
            Double.guess_type Double.read_file
            (WordPressClient_init Double.requests_default_headers
               "https://example.com/wp-json/" (Some "admin") (Some "s3cret!") None None)
            "/tmp/a/logo.png" None None None
            (Double.st0 [Double.created Double.doc_id42])).2
    = req :: rest ∧
    req_headers req !! "Content-Type" = Some "image/png" ∧
    req_headers req !! "Content-Disposition"
      = Some ("attachment; filename=" +:+ PyStr.dquote +:+ "logo.png" +:+ PyStr.dquote).
Proof.
  destruct (upload_media_request_headers
              Double.session_request Double.json_loads Double.py_repr
              Double.guess_type Double.read_file
              (WordPressClient_init Double.requests_default_headers
                 "https://example.com/wp-json/" (Some "admin") (Some "s3cret!") None None)
              "/tmp/a/logo.png" None None None
              (Double.st0 [Double.created Double.doc_id42])
              ["137"%byte; "P"%byte; "N"%byte; "G"%byte] eq_refl)
    as (req & rest & dir & Hsent & _ & _ & _ & _ & Hpng & _ & Hdisp & _).
  exists req, rest. split; [exact Hsent|]. split; [exact (Hpng eq_refl)|exact Hdisp].
Defined.

(** Uploading with a title: two calls, and the answer of the second is
    what the method returns. *)
Lemma upload_media_result_witness :
  (upload_media Double.session_request Double.json_loads Double.py_repr
     Double.guess_type Double.read_file
     (WordPressClient_init Double.requests_default_headers
        "https://example.com/wp-json/" (Some "admin") (Some "s3cret!") None None)
     "/tmp/a/logo.png" (Some "Logo") None None
     (Double.st0 [Double.created Double.doc_id42; Double.ok Double.doc_id42_titled])).1
  = Return (JObj {[ "id" := JNum 42; "title" := JStr "Logo" ]}).
Proof.
  pose proof (upload_media_result
                Double.session_request Double.json_loads Double.py_repr
                Double.guess_type Double.read_file
                (WordPressClient_init Double.requests_default_headers
                   "https://example.com/wp-json/" (Some "admin") (Some "s3cret!") None None)
                "/tmp/a/logo.png" (Some "Logo") None None
                (Double.st0 [Double.created Double.doc_id42; Double.ok Double.doc_id42_titled])
                ["137"%byte; "P"%byte; "N"%byte; "G"%byte] eq_refl) as H.
  cbv zeta in H. destruct H as (Hboth & _).
  set (self := WordPressClient_init Double.requests_default_headers
                 "https://example.com/wp-json/" (Some "admin") (Some "s3cret!") None None) in *.
  set (st := Double.st0 [Double.created Double.doc_id42; Double.ok Double.doc_id42_titled]) in *.
  set (st1 := (post Double.session_request Double.json_loads Double.py_repr self
                 "wp/v2/media" (Some ["137"%byte; "P"%byte; "N"%byte; "G"%byte]) None
                 (Some (upload_media_headers Double.guess_type "/tmp/a/logo.png")) st).2).
  set (st2 := (post Double.session_request Double.json_loads Double.py_repr self
                 "wp/v2/media/42" None
                 (Some (upload_media_metadata (Some "Logo") None None)) None st1).2).
  destruct (Hboth eq_refl (JObj {[ "id" := JNum 42 ]}) st1 (JNum 42)
              (JObj {[ "id" := JNum 42; "title" := JStr "Logo" ]}) st2) as [Hrun _].
  - vm_compute. reflexivity.
  - vm_compute. reflexivity.
  - vm_compute. reflexivity.
  - rewrite Hrun. reflexivity.
Defined.

(** * Properties of [ConfigManager] *)

Section ConfigManagerFacts.

Import ConfigManager.

Lemma partition_length sep s before rest :
  partition sep s = Some (before, rest) → (String.length rest < String.length s)%nat.
Proof.
  revert before. induction s as [|a s IH]; intros before; cbn [partition]; [done|].
  destruct (Ascii.eqb a sep).
  - intros [= <- <-]. cbn. lia.
  - destruct (partition sep s) as [[b r]|]; [|done].
    intros [= <- <-]. specialize (IH b eq_refl). cbn. lia.
Qed.

Lemma split_partition_None sep s : partition sep s = None → split sep s = [s].
Proof.
  induction s as [|a s IH]; cbn [partition split]; [done|].
  destruct (Ascii.eqb a sep); [done|].
  destruct (partition sep s) as [[b r]|]; [done|].
  intros _. by rewrite IH.
Qed.

Lemma split_partition_Some sep s before rest :
  partition sep s = Some (before, rest) → split sep s = before :: split sep rest.
Proof.
  revert before. induction s as [|a s IH]; intros before; cbn [partition split]; [done|].
  destruct (Ascii.eqb a sep).
  - by intros [= <- <-].
  - destruct (partition sep s) as [[b r]|]; [|done].
    intros [= <- <-]. by rewrite (IH b eq_refl).
Qed.

(** The result of [_set_nested_key] does not depend on the fuel, once
    there is enough of it. *)
Lemma set_nested_key_fuel_enough fuel1 fuel2 config_dict key value :
  (String.length key ≤ fuel1)%nat → (String.length key ≤ fuel2)%nat →
  set_nested_key_fuel fuel1 config_dict key value
  = set_nested_key_fuel fuel2 config_dict key value.
Proof.
  revert fuel2 config_dict key.
  induction fuel1 as [|fuel1 IH]; intros fuel2 config_dict key H1 H2.
  - destruct key; [|cbn in H1; lia]. by destruct fuel2.
  - destruct fuel2 as [|fuel2].
    { destruct key; [done|cbn in H2; lia]. }
    cbn [set_nested_key_fuel].
    destruct (partition "." key) as [[main_key rest]|] eqn:Hp; [|done].
    apply partition_length in Hp.
    destruct (config_dict !! main_key) as [[| | | | |sub]|];
      try done; by rewrite (IH fuel2) by lia.
Qed.

(** [_set_nested_key] as the source writes it. *)
Lemma _set_nested_key_unfold config_dict key value :
  _set_nested_key config_dict key value =
    match partition "." key with
    | Some (main_key, rest) =>
        match config_dict !! main_key with
        | None =>
            let '(outcome, sub) := _set_nested_key ∅ rest value in
            (outcome, <[main_key := JObj sub]> config_dict)
        | Some (JObj sub) =>
            let '(outcome, sub') := _set_nested_key sub rest value in
            (outcome, <[main_key := JObj sub']> config_dict)
        | Some x => (Raise (not_a_dict x rest), config_dict)
        end
    | None => (Return tt, <[key := value]> config_dict)
    end.
Proof.
  unfold _set_nested_key.
  destruct (partition "." key) as [[main_key rest]|] eqn:Hp.
  - pose proof (partition_length _ _ _ _ Hp) as Hlen.
    destruct (String.length key) as [|n] eqn:Hn; [lia|].
    cbn [set_nested_key_fuel]. rewrite Hp.
    destruct (config_dict !! main_key) as [[| | | | |sub]|]; try done;
      by rewrite (set_nested_key_fuel_enough n (String.length rest)) by lia.
  - destruct (String.length key); cbn [set_nested_key_fuel]; by rewrite Hp.
Qed.

Example set_creates_nested_dicts :
  set ∅ "wordpress.url" (JStr "https://example.com")
  = (Return tt, {[ "wordpress" := JObj {[ "url" := JStr "https://example.com" ]} ]}).
Proof. vm_compute. reflexivity. Qed.

Example set_through_a_string :
  (set {[ "wordpress" := JStr "x" ]} "wordpress.url" (JStr "u")).1
  = Raise (TypeError "'str' object does not support item assignment").
Proof. vm_compute. reflexivity. Qed.

Example config_key_nested :
  config_key "BOOMPAH_" "BOOMPAH_WORDPRESS_BASE_URL" = "wordpress.base.url".
Proof. reflexivity. Qed.

Lemma set_then_get config key value default config' :
  _set_nested_key config key value = (Return tt, config') →
  get_loop (split "." key) (JObj config') default = value.
Proof.
  remember (String.length key) as n eqn:Hn. revert key Hn config config'.
  induction (lt_wf n) as [n _ IH]. intros key -> config config'.
  rewrite _set_nested_key_unfold.
  destruct (partition "." key) as [[main_key rest]|] eqn:Hp.
  - rewrite (split_partition_Some _ _ _ _ Hp). cbn [get_loop].
    pose proof (IH _ (partition_length _ _ _ _ Hp) rest eq_refl) as IHrest.
    destruct (config !! main_key) as [[| | | | |sub]|]; try done.
    + destruct (_set_nested_key sub rest value) as [outcome sub'] eqn:Hrec.
      intros [= -> <-]. rewrite lookup_insert_eq. by eapply IHrest.
    + destruct (_set_nested_key ∅ rest value) as [outcome sub'] eqn:Hrec.
      intros [= -> <-]. rewrite lookup_insert_eq. by eapply IHrest.
  - rewrite (split_partition_None _ _ Hp). cbn [get_loop].
    intros [= <-]. by rewrite lookup_insert_eq.
Qed.


Lemma get_loop_empty parts default :
  parts ≠ [] → get_loop parts (JObj ∅) default = default.
Proof. destruct parts; [done|]. intros _. cbn. by rewrite lookup_empty. Qed.

(** X17: [get] falls back on the default: it returns [default] when
    the first part of the key is not in the configuration, and when a
    part of the key is looked up in a value that is not a dict. *)
Theorem config_get_default config key default :
  (config !! hd "" (split "." key) = None → get config key default = default) ∧
  (∀ x rest, config !! hd "" (split "." key) = Some x →
     (∀ d, x ≠ JObj d) → tail (split "." key) = rest → rest ≠ [] →
     get config key default = default) ∧
  get ∅ key default = default.
Proof.
  unfold get. split_and!.
  - destruct (split "." key) as [|part parts] eqn:Hs; cbn.
    + by destruct key; cbn in Hs; repeat case_match.
    + by intros ->.
  - intros x rest Hx Hnot <- Hrest.
    destruct (split "." key) as [|part [|part' parts]]; cbn in *; try done.
    rewrite Hx. destruct x; try done. by destruct (Hnot m).
  - apply get_loop_empty. destruct key; cbn; repeat case_match; done.
Qed.

Lemma replace_no_underscore s :
  existsb (Ascii.eqb "_") (list_ascii_of_string (replace "_" "." s)) = false.
Proof.
  induction s as [|c s IH]; [done|].
  cbn [replace list_ascii_of_string existsb]. rewrite IH, orb_false_r.
  destruct (Ascii.eqb c "_") eqn:E; [done|].
  by rewrite Ascii.eqb_sym.
Qed.

Lemma load_from_env_loop_app items1 items2 prefix config :
  load_from_env_loop (items1 ++ items2) prefix config =
    match load_from_env_loop items1 prefix config with
    | (Return _, config') => load_from_env_loop items2 prefix config'
    | (Raise e, config') => (Raise e, config')
    end.
Proof.
  revert config. induction items1 as [|[key value] items1 IH]; intros config; [done|].
  cbn [app load_from_env_loop].
  destruct (String.prefix prefix key); [|apply IH].
  destruct (_set_nested_key config (config_key prefix key) (JStr value)) as [[[]|e] config'];
    [apply IH|done].
Qed.

(** X18: [load_from_env], for variables whose names are ASCII. A
    variable whose name does not start with the prefix changes nothing.
    The key made of a variable's name never holds an underscore: every
    underscore of the name becomes a level of nesting. And when the load
    returns, the value of the last variable with the prefix is read back
    by [get] under the key made of its name. *)
Theorem load_from_env_last environ prefix config name value config' default :
  Forall (λ item, PyStr.is_ascii item.1 = true) (environ ++ [(name, value)]) →
  String.prefix prefix name = true →
  load_from_env_loop (environ ++ [(name, value)]) prefix config = (Return tt, config') →
  get config' (config_key prefix name) default = JStr value ∧
  existsb (Ascii.eqb "_") (list_ascii_of_string (config_key prefix name)) = false ∧
  (∀ others : list (string * string),
     Forall (λ item, String.prefix prefix item.1 = false) others →
     load_from_env others prefix config'
     = (Return tt, config',
        [(INFO, "Loaded configuration from environment variables with prefix " +:+ prefix)])).
Proof.
  intros _ Hprefix. rewrite load_from_env_loop_app.
  destruct (load_from_env_loop environ prefix config) as [[[]|e] config1]; [|done].
  cbn [load_from_env_loop]. rewrite Hprefix.
  destruct (_set_nested_key config1 (config_key prefix name) (JStr value))
    as [[[]|e] config2] eqn:Hset; [|done].
  intros [= <-]. split_and!.
  - by eapply set_then_get.
  - apply replace_no_underscore.
  - intros others Hothers. unfold load_from_env.
    assert (load_from_env_loop others prefix config2 = (Return tt, config2)) as ->; [|done].
    induction Hothers as [|[k v] others Hk _ IH]; [done|].
    cbn [load_from_env_loop]. cbn in Hk. by rewrite Hk.
Qed.

End ConfigManagerFacts.

(** * The further properties on concrete inputs *)

(** A 304 answer with an empty body is a success: the empty mapping. *)
Lemma request_raises_iff_witness :
  (_request Double.session_request Double.json_loads Double.py_repr
     Double.api "GET" "wp/v2/posts" None None None None
     (Double.st0 [inl {| status_code := 304; reason := "Not Modified";
                         url := "https://example.com/wp-json/wp/v2/posts";
                         text := "" |}])).1
  = Return (JObj ∅).
Proof.
  destruct (request_raises_iff
              Double.session_request Double.json_loads Double.py_repr
              Double.api "GET" "wp/v2/posts" None None None None
              (Double.st0 [inl {| status_code := 304; reason := "Not Modified";
                                  url := "https://example.com/wp-json/wp/v2/posts";
                                  text := "" |}])
              {| status_code := 304; reason := "Not Modified";
                 url := "https://example.com/wp-json/wp/v2/posts"; text := "" |} [] eq_refl)
    as [_ Hreturn].
  apply Hreturn. simpl. lia.
Defined.

(** No answer at all: the exception of the transport is raised as it is. *)
Lemma request_transport_failure_witness :
  ∃ st',
    _request Double.session_request Double.json_loads Double.py_repr
      Double.api "GET" "wp/v2/posts" None None None None (Double.st0 [])
    = (Raise (ConnectionError "connection refused"), st').
Proof.
  destruct (request_transport_failure
              Double.session_request Double.json_loads Double.py_repr
              Double.api "GET" "wp/v2/posts" None None None None (Double.st0 [])
              (ConnectionError "connection refused") [] eq_refl)
    as (st' & Hrun & _).
  exists st'. exact Hrun.
Defined.

(** The upload succeeds, the metadata update is refused: the error of
    the second call, after two requests. *)
Lemma upload_media_no_rollback_witness :
  ∃ msg,
    (upload_media Double.session_request Double.json_loads Double.py_repr
       Double.guess_type Double.read_file
       (WordPressClient_init Double.requests_default_headers
          "https://example.com/wp-json/" (Some "admin") (Some "s3cret!") None None)
       "/tmp/a/logo.png" (Some "Logo") None None
       (Double.st0 [Double.created Double.doc_id42;
                    inl (Double.forbidden Double.doc_forbidden)])).1
    = Raise (HTTPError msg (Double.forbidden Double.doc_forbidden)).
Proof.
  set (self := WordPressClient_init Double.requests_default_headers
                 "https://example.com/wp-json/" (Some "admin") (Some "s3cret!") None None).
  set (st := Double.st0 [Double.created Double.doc_id42;
                         inl (Double.forbidden Double.doc_forbidden)]).
  set (st1 := (post Double.session_request Double.json_loads Double.py_repr self
                 "wp/v2/media" (Some ["137"%byte; "P"%byte; "N"%byte; "G"%byte]) None
                 (Some (upload_media_headers Double.guess_type "/tmp/a/logo.png")) st).2).
  set (st2 := (post Double.session_request Double.json_loads Double.py_repr self
                 "wp/v2/media/42" None
                 (Some (upload_media_metadata (Some "Logo") None None)) None st1).2).
  destruct (upload_media_no_rollback
              Double.session_request Double.json_loads Double.py_repr
              Double.guess_type Double.read_file self
              "/tmp/a/logo.png" (Some "Logo") None None st
              ["137"%byte; "P"%byte; "N"%byte; "G"%byte]
              (JObj {[ "id" := JNum 42 ]}) st1 (JNum 42)
              (HTTPError (http_error_msg (Double.forbidden Double.doc_forbidden))
                 (Double.forbidden Double.doc_forbidden)) st2)
    as [Hrun _].
  - reflexivity.
  - reflexivity.
  - vm_compute. reflexivity.
  - vm_compute. reflexivity.
  - vm_compute. reflexivity.
  - eexists. rewrite Hrun. reflexivity.
Defined.

(** The upload is answered 201 with an empty body and a title is given:
    [KeyError('id')] after the one request. *)
Lemma upload_media_missing_id_witness :
  (upload_media Double.session_request Double.json_loads Double.py_repr
     Double.guess_type Double.read_file
     (WordPressClient_init Double.requests_default_headers
        "https://example.com/wp-json/" (Some "admin") (Some "s3cret!") None None)
     "/tmp/a/logo.png" (Some "Logo") None None
     (Double.st0 [Double.created ""])).1
  = Raise (KeyError "id").
Proof.
  destruct (upload_media_missing_id
              Double.session_request Double.json_loads Double.py_repr
              Double.guess_type Double.read_file
              (WordPressClient_init Double.requests_default_headers
                 "https://example.com/wp-json/" (Some "admin") (Some "s3cret!") None None)
              "/tmp/a/logo.png" (Some "Logo") None None
              (Double.st0 [Double.created ""])
              ["137"%byte; "P"%byte; "N"%byte; "G"%byte]
              {| status_code := 201; reason := "Created";
                 url := "https://example.com/wp-json/x"; text := "" |} [])
    as (st1 & req & Hrun & _).
  - reflexivity.
  - reflexivity.
  - reflexivity.
  - simpl. lia.
  - reflexivity.
  - rewrite Hrun. reflexivity.
Defined.

(** A missing file: the error of [open], and the canned answer unused. *)
Lemma upload_media_unreadable_witness :
  upload_media Double.session_request Double.json_loads Double.py_repr
    Double.guess_type Double.read_file
    (WordPressClient_init Double.requests_default_headers
       "https://example.com/wp-json/" (Some "admin") (Some "s3cret!") None None)
    "/missing.png" (Some "Logo") None None (Double.st0 [Double.created Double.doc_id42])
  = (Raise (OSError "/missing.png"), Double.st0 [Double.created Double.doc_id42]).
Proof.
  apply (upload_media_unreadable
           Double.session_request Double.json_loads Double.py_repr
           Double.guess_type Double.read_file).
  reflexivity.
Defined.

(** An empty custom user agent is ignored. *)
Lemma wordpress_user_agent_witness :
  req_headers
    (request_of
       (WordPressClient_init Double.requests_default_headers
          "https://example.com/wp-json/" None None (Some "tok") (Some ""))
       "GET" "wp/v2/users/me" None None None None) !! "User-Agent"
  = Some "BoomPahConnect/0.1.0".
Proof.
  apply (wordpress_user_agent Double.requests_default_headers
           "https://example.com/wp-json/" None None (Some "tok") (Some "")
           "GET" "wp/v2/users/me" None None None None).
  intros h Hh. discriminate Hh.
Defined.


(** [BOOMPAH_WORDPRESS_URL] is read back under [wordpress.url]; [PATH]
    is ignored. *)
Lemma load_from_env_last_witness :
  ConfigManager.get
    (ConfigManager.load_from_env_loop
       [("PATH", "/usr/bin"); ("BOOMPAH_WORDPRESS_URL", "https://example.com")]
       "BOOMPAH_" ∅).2
    "wordpress.url" JNull
  = JStr "https://example.com".
Proof.
  destruct (load_from_env_last [("PATH", "/usr/bin")] "BOOMPAH_" ∅
              "BOOMPAH_WORDPRESS_URL" "https://example.com"
              (ConfigManager.load_from_env_loop
                 [("PATH", "/usr/bin"); ("BOOMPAH_WORDPRESS_URL", "https://example.com")]
                 "BOOMPAH_" ∅).2 JNull)
    as (Hget & _).
  - by repeat constructor.
  - reflexivity.
  - vm_compute. reflexivity.
  - exact Hget.
Defined.
